(** * ChitChat front end: synchronisation and resilience layer

    A shallow embedding of the configuration ([API_CONFIG], [Config]), the
    request/response client ([ApiService]), the error classifier
    ([ErrorHandler]), the session provider ([AuthProvider]), the chat state
    provider ([ChatProvider]) and the notification components of the
    ChitChat React client, followed by the properties of the design document
    that can be decided on them and by further properties of the code.

    Conventions.
    - A JavaScript [string] is a [string]; [number]s that are HTTP statuses,
      millisecond clocks or durations are [Z]; a retry counter is a [nat].
    - An optional field ([x?: T], [T | null]) is an [option].
    - [localStorage] and the retry-callback [Map] are [gmap string _].
    - A function that may throw returns a sum [Exn + A]; [inl e] is the
      thrown value.
    - An [async] function is run to completion against an oracle that says
      how each [fetch] call settles; the requests it issues are returned as a
      trace. *)

From stdpp Require Import gmap strings list pretty sorting.
From Stdlib Require Import ZArith.

Local Open Scope string_scope.
Local Open Scope Z_scope.

(** JavaScript truthiness of a possibly missing string: [undefined], [null]
    and the empty string are falsy. *)
Definition truthy (v : option string) : bool :=
  match v with
  | Some s => negb (String.eqb s "")
  | None => false
  end.

(** [v || d] on a possibly missing string. *)
Definition js_or (v : option string) (d : string) : string :=
  match v with
  | Some s => if String.eqb s "" then d else s
  | None => d
  end.

(** [v || d] on a possibly missing number. *)
Definition js_or_number (v : option Z) (d : Z) : Z :=
  match v with
  | Some z => if Z.eqb z 0 then d else z
  | None => d
  end.

(** * services/config.ts *)

Module API_CONFIG.

Definition API_PREFIX : string := "/api".

Definition TIMEOUT (isDevelopment : bool) : Z :=
  if isDevelopment then 15000 else 10000.

Definition RETRY_ATTEMPTS : nat := 3.

Definition RETRY_DELAY : Z := 1000.

Module ENDPOINTS.
Module AUTH.
Definition LOGIN : string := "/auth/login".
Definition REGISTER : string := "/auth/register".
Definition PROFILE : string := "/auth/profile".
Definition LOGOUT : string := "/auth/logout".
End AUTH.
Module CHAT.
Definition ROOMS : string := "/chat/rooms".
Definition MESSAGES (roomId : string) : string :=
  "/chat/rooms/" +:+ roomId +:+ "/messages".
Definition SEND_MESSAGE (roomId : string) : string :=
  "/chat/rooms/" +:+ roomId +:+ "/messages".
End CHAT.
End ENDPOINTS.

Module STORAGE_KEYS.
Definition TOKEN : string := "chitchat_token".
Definition USER : string := "chitchat_user".
End STORAGE_KEYS.

End API_CONFIG.

(** The environment [config.ts] is evaluated in: [process.env.NODE_ENV] and
    the two URL variables, each possibly unset. *)
Module ProcessEnv.
Record t := mk {
  NODE_ENV : option string;
  NEXT_PUBLIC_BACKEND_URL : option string;
  NEXT_PUBLIC_WEBSOCKET_URL : option string
}.
End ProcessEnv.

Inductive Environment := development | production | test.

Module Config.

Definition isDevelopment (env : ProcessEnv.t) : bool :=
  bool_decide (ProcessEnv.NODE_ENV env = Some "development").

Definition isProduction (env : ProcessEnv.t) : bool :=
  bool_decide (ProcessEnv.NODE_ENV env = Some "production").

Definition getCurrentEnvironment (env : ProcessEnv.t) : Environment :=
  if bool_decide (ProcessEnv.NODE_ENV env = Some "test") then test
  else if bool_decide (ProcessEnv.NODE_ENV env = Some "production") then production
  else development.

Definition BACKEND_URLS (env : ProcessEnv.t) (which : Environment) : string :=
  match which with
  | development => "http://localhost:8080"
  | production => js_or (ProcessEnv.NEXT_PUBLIC_BACKEND_URL env) ""
  | test => "http://localhost:8080"
  end.

Definition WEBSOCKET_URLS (env : ProcessEnv.t) (which : Environment) : string :=
  match which with
  | development => "ws://localhost:8080"
  | production => js_or (ProcessEnv.NEXT_PUBLIC_WEBSOCKET_URL env) ""
  | test => "ws://localhost:8080"
  end.

(** [API_CONFIG.BASE_URL], [WEBSOCKET_URL], [TIMEOUT] and the two feature
    flags that depend on the environment. *)
Definition BASE_URL (env : ProcessEnv.t) : string :=
  BACKEND_URLS env (getCurrentEnvironment env).

Definition WEBSOCKET_URL (env : ProcessEnv.t) : string :=
  WEBSOCKET_URLS env (getCurrentEnvironment env).

Definition TIMEOUT (env : ProcessEnv.t) : Z :=
  API_CONFIG.TIMEOUT (isDevelopment env).

Definition DEBUG_MODE (env : ProcessEnv.t) : bool := isDevelopment env.

Definition WEBSOCKET_ENABLED : bool := true.

(** [s.replace(/\/$/, '')]: a slash that ends the string is removed. *)
Fixpoint stripTrailingSlash (s : string) : string :=
  match s with
  | EmptyString => EmptyString
  | String c s' =>
      if String.eqb s "/" then EmptyString else String c (stripTrailingSlash s')
  end.

(** [s.startsWith('/')] *)
Definition startsWithSlash (s : string) : bool := String.prefix "/" s.

(** [endpoint.startsWith('/') ? endpoint : `/${endpoint}`] *)
Definition cleanEndpoint (endpoint : string) : string :=
  if startsWithSlash endpoint then endpoint else "/" +:+ endpoint.

Definition getApiUrl (env : ProcessEnv.t) (endpoint : string) : string :=
  let baseUrl := BASE_URL env in
  if String.eqb baseUrl "" then endpoint
  else stripTrailingSlash baseUrl +:+ API_CONFIG.API_PREFIX +:+ cleanEndpoint endpoint.

(** [getWebSocketUrl(endpoint = '')] *)
Definition getWebSocketUrl (env : ProcessEnv.t) (endpoint : option string)
  : string :=
  let baseUrl := WEBSOCKET_URL env in
  if String.eqb baseUrl "" then ""
  else stripTrailingSlash baseUrl +:+ cleanEndpoint (default "" endpoint).

Definition isApiConfigValid (env : ProcessEnv.t) : bool :=
  let hasBaseUrl := negb (String.eqb (BASE_URL env) "") in
  let hasWebSocketUrl := negb (String.eqb (WEBSOCKET_URL env) "") in
  hasBaseUrl && (hasWebSocketUrl || negb WEBSOCKET_ENABLED).

End Config.

(** * types.ts *)

Inductive UserStatus := online | offline | away.

Module UserResponse.
Record t := mk {
  id : string;
  full_name : option string;
  user_name : option string;
  email : string;
  avatar_url : option string;
  status : bool
}.
End UserResponse.

Module User.
Record t := mk {
  id : string;
  fullName : option string;
  username : option string;
  email : string;
  avatarUrl : option string;
  status : UserStatus
}.
End User.

Inductive MessageType := text | image | link | file.

Module Message.
Record t := mk {
  id : string;
  senderId : string;
  roomId : string;
  text : string;
  timestamp : Z;
  type : MessageType;
  isEdited : bool;
  editedAt : option Z;
  sender : option User.t
}.
End Message.

Inductive ChatType := dm | group | bot.

Module Chat.
Record t := mk {
  id : string;
  type : ChatType;
  name : string;
  participants : list User.t;
  messages : list Message.t;
  avatarUrl : option string;
  lastMessage : option Message.t;
  creatorId : option string
}.

(** [{ ...chat, messages: ms }] *)
Definition with_messages (chat : t) (ms : list Message.t) : t :=
  mk (id chat) (type chat) (name chat) (participants chat) ms
     (avatarUrl chat) (lastMessage chat) (creatorId chat).

(** [{ ...chat, messages: ms, lastMessage: m }] *)
Definition with_messages_last (chat : t) (ms : list Message.t) (m : Message.t) : t :=
  mk (id chat) (type chat) (name chat) (participants chat) ms
     (avatarUrl chat) (Some m) (creatorId chat).
End Chat.

Module SendMessagePayload.
Record t := mk {
  text : string;
  type : MessageType
}.
End SendMessagePayload.

Module LoginPayload.
Record t := mk {
  usernameOrEmail : string;
  password : option string
}.
End LoginPayload.

Module RegisterPayload.
Record t := mk {
  fullName : option string;
  username : option string;
  email : string;
  password : option string
}.
End RegisterPayload.

(** The [{ token, user }] body of a login or register response; [user]
    is [None] when the body has no such property. *)
Module AuthResponse.
Record t := mk {
  token : string;
  user : option UserResponse.t
}.
End AuthResponse.

(** [messageType] is one of ['TEXT' | 'IMAGE' | 'LINK' | 'FILE'] and is
    lower-cased into a [Message] type; both are [MessageType] here. Dates
    are milliseconds since the epoch. *)
Module MessageResponse.
Record t := mk {
  id : string;
  roomId : string;
  senderId : string;
  content : string;
  messageType : MessageType;
  sentAt : Z;
  editedAt : option Z;
  sender : option UserResponse.t;
  isEdited : option bool
}.
End MessageResponse.

Module ChatRoomResponse.
Record t := mk {
  id : string;
  name : string;
  isGroup : bool;
  creatorId : option string;
  avatarUrl : option string;
  participants : list UserResponse.t;
  lastMessage : option MessageResponse.t
}.
End ChatRoomResponse.

Inductive WebSocketMessageType :=
  NEW_MESSAGE | TYPING_INDICATOR | USER_JOINED | USER_LEFT | ERROR.

Module WebSocketMessage.
Record t := mk {
  type : WebSocketMessageType;
  id : string;
  senderId : string;
  roomId : string;
  text : string;
  timestamp : Z;
  messageType : MessageType
}.
End WebSocketMessage.

(** The browser's [localStorage]. *)
Abbreviation Storage := (gmap string string).

(** * services/apiService.ts: error classes *)

(** The fields of a structured fault body that the client reads. *)
Module ErrorResponse.
Record t := mk {
  message : option string;
  validationErrors : option (list (string * string));
  userMessage : option string
}.
End ErrorResponse.

(** Values that can be thrown: the three error classes of the transport
    client, any other [Error] instance (a [TypeError] of [fetch], the
    [AbortError] of the timeout, a [SyntaxError] of [response.json()]), and a
    thrown value that is not an [Error].

    [errorData] has the type the handlers of the classifier declare for it,
    [ErrorResponse]; every [ApiError] that [handleResponse] throws carries
    one. *)
Inductive Exn :=
| ApiError (message : string) (status : Z) (errorData : ErrorResponse.t)
| NetworkError (message : string)
| ValidationError (validationErrors : list (string * string))
| JsError (name message : string)
| NonError.

Definition exn_name (e : Exn) : option string :=
  match e with
  | ApiError _ _ _ => Some "ApiError"
  | NetworkError _ => Some "NetworkError"
  | ValidationError _ => Some "ValidationError"
  | JsError n _ => Some n
  | NonError => None
  end.

Definition exn_message (e : Exn) : option string :=
  match e with
  | ApiError m _ _ => Some m
  | NetworkError m => Some m
  | ValidationError _ => Some "Validation failed"
  | JsError _ m => Some m
  | NonError => None
  end.

(** * services/errorHandler.ts *)

Inductive Severity := error | warning | info.

(** The [action] closures of a notification, one constructor per closure
    body in the source. The two retry closures capture [context]. *)
Inductive ActionClosure :=
| GoToAuth
| ReloadWindow
| RetryOrReload (context : option string)
| RetryOnly (context : option string).

Module NotificationAction.
Record t := mk {
  label : string;
  action : ActionClosure
}.
End NotificationAction.

Module ErrorNotification.
Record t := mk {
  type : Severity;
  title : string;
  message : string;
  duration : option Z;
  actions : list NotificationAction.t
}.
End ErrorNotification.

(** What running an [action] closure does. A retry callback is an opaque
    [() => Promise<void>]; it is identified by a name. *)
Inductive ActionEffect :=
| SetLocationHref (href : string)
| LocationReload
| CallRetryCallback (callback : string)
| NoEffect.

Module ErrorHandler.

(** [this.retryCallbacks] *)
Abbreviation RetryCallbacks := (gmap string string).

Definition registerRetryCallback (context callback : string)
  (retryCallbacks : RetryCallbacks) : RetryCallbacks :=
  <[context := callback]> retryCallbacks.

Definition unregisterRetryCallback (context : string)
  (retryCallbacks : RetryCallbacks) : RetryCallbacks :=
  delete context retryCallbacks.

(** [const retryKey = context || 'default'] *)
Definition retryKey (context : option string) : string :=
  js_or context "default".

(** The body of each [action] closure, run against the registry as it is
    when the user triggers the action. *)
Definition run_action (a : ActionClosure) (retryCallbacks : RetryCallbacks)
  : ActionEffect :=
  match a with
  | GoToAuth => SetLocationHref "/auth"
  | ReloadWindow => LocationReload
  | RetryOrReload context =>
      match retryCallbacks !! retryKey context with
      | Some retryCallback => CallRetryCallback retryCallback
      | None => LocationReload
      end
  | RetryOnly context =>
      match retryCallbacks !! retryKey context with
      | Some retryCallback => CallRetryCallback retryCallback
      | None => NoEffect
      end
  end.

(** [Object.entries(errs).map(([field, message]) => `${field}: ${message}`).join(', ')] *)
Definition validationMessages (errs : list (string * string)) : string :=
  String.concat ", " (map (fun fm => fst fm +:+ ": " +:+ snd fm) errs).

Definition notify (ty : Severity) (title message : string) (duration : Z)
  (actions : list NotificationAction.t) : ErrorNotification.t :=
  ErrorNotification.mk ty title message (Some duration) actions.

Definition handleBadRequestError (errorData : ErrorResponse.t)
  (context : option string) : ErrorNotification.t :=
  let baseMessage :=
    js_or (ErrorResponse.userMessage errorData)
      (js_or (ErrorResponse.message errorData) "Invalid request") in
  match ErrorResponse.validationErrors errorData with
  | Some errs =>
      notify error "Validation Error"
        (baseMessage +:+ ". " +:+ validationMessages errs) 8000 []
  | None => notify error "Invalid Request" baseMessage 5000 []
  end.

Definition handleUnauthorizedError (errorData : ErrorResponse.t)
  (context : option string) : ErrorNotification.t :=
  notify error "Authentication Required"
    (js_or (ErrorResponse.userMessage errorData)
       "You need to log in to access this resource")
    5000 [NotificationAction.mk "Log In" GoToAuth].

Definition handleForbiddenError (errorData : ErrorResponse.t)
  (context : option string) : ErrorNotification.t :=
  notify error "Access Denied"
    (js_or (ErrorResponse.userMessage errorData)
       "You don't have permission to access this resource")
    5000 [].

Definition handleNotFoundError (errorData : ErrorResponse.t)
  (context : option string) : ErrorNotification.t :=
  notify error "Not Found"
    (js_or (ErrorResponse.userMessage errorData)
       "The requested resource was not found")
    5000 [].

Definition handleConflictError (errorData : ErrorResponse.t)
  (context : option string) : ErrorNotification.t :=
  notify error "Conflict"
    (js_or (ErrorResponse.userMessage errorData)
       "A conflict occurred with the current state of the resource")
    5000 [NotificationAction.mk "Refresh" ReloadWindow].

Definition handlePayloadTooLargeError (errorData : ErrorResponse.t)
  (context : option string) : ErrorNotification.t :=
  notify error "File Too Large"
    (js_or (ErrorResponse.userMessage errorData)
       "The uploaded file is too large")
    5000 [].

Definition handleRateLimitError (errorData : ErrorResponse.t)
  (context : option string) : ErrorNotification.t :=
  notify warning "Rate Limit Exceeded"
    (js_or (ErrorResponse.userMessage errorData)
       "Too many requests. Please try again later")
    5000 [].

Definition handleInternalServerError (errorData : ErrorResponse.t)
  (context : option string) : ErrorNotification.t :=
  notify error "Server Error"
    (js_or (ErrorResponse.userMessage errorData)
       "A server error occurred. Please try again later")
    5000 [NotificationAction.mk "Retry" (RetryOrReload context)].

Definition handleServerUnavailableError (errorData : ErrorResponse.t)
  (context : option string) : ErrorNotification.t :=
  notify error "Server Unavailable"
    (js_or (ErrorResponse.userMessage errorData)
       "The server is temporarily unavailable. Please try again later")
    8000 [NotificationAction.mk "Retry" (RetryOnly context)].

Definition handleGenericApiError (message : string)
  (context : option string) : ErrorNotification.t :=
  notify error "API Error"
    (js_or (Some message) "An unexpected error occurred") 5000 [].

Definition handleNetworkError (context : option string) : ErrorNotification.t :=
  notify error "Network Error"
    "Unable to connect to the server. Please check your internet connection and try again."
    8000 [NotificationAction.mk "Retry" (RetryOnly context)].

Definition handleValidationError (validationErrors : list (string * string))
  (context : option string) : ErrorNotification.t :=
  notify error "Validation Error"
    ("Please fix the following errors: " +:+ validationMessages validationErrors)
    8000 [].

Definition handleGenericError (message : string)
  (context : option string) : ErrorNotification.t :=
  notify error "Error" (js_or (Some message) "An unexpected error occurred")
    5000 [].

Definition handleUnknownError (context : option string) : ErrorNotification.t :=
  notify error "Unknown Error"
    "An unexpected error occurred. Please try again." 5000 [].

(** The [switch (error.status)] of [handleApiError]. *)
Definition handleApiError (message : string) (status : Z)
  (errorData : ErrorResponse.t) (context : option string)
  : ErrorNotification.t :=
  if Z.eqb status 400 then handleBadRequestError errorData context
  else if Z.eqb status 401 then handleUnauthorizedError errorData context
  else if Z.eqb status 403 then handleForbiddenError errorData context
  else if Z.eqb status 404 then handleNotFoundError errorData context
  else if Z.eqb status 409 then handleConflictError errorData context
  else if Z.eqb status 413 then handlePayloadTooLargeError errorData context
  else if Z.eqb status 422 then
    handleValidationError
      (default [] (ErrorResponse.validationErrors errorData)) context
  else if Z.eqb status 429 then handleRateLimitError errorData context
  else if Z.eqb status 500 then handleInternalServerError errorData context
  else if Z.eqb status 502 || Z.eqb status 503 || Z.eqb status 504 then
    handleServerUnavailableError errorData context
  else handleGenericApiError message context.

(** The [instanceof] dispatch of [handleError]; the notification is both
    shown and returned. *)
Definition handleError (e : Exn) (context : option string)
  : ErrorNotification.t :=
  match e with
  | ApiError message status errorData =>
      handleApiError message status errorData context
  | NetworkError _ => handleNetworkError context
  | ValidationError validationErrors =>
      handleValidationError validationErrors context
  | JsError _ message => handleGenericError message context
  | NonError => handleUnknownError context
  end.

(** [errorData] is an optional argument of the [ApiError] constructor.
    [handleResponse] always passes it; [uploadFile] builds its [ApiError]
    from the message and the status alone. What [handleError] can be given
    is therefore a value of [Exn], or an [ApiError] whose [errorData] is
    [undefined]. *)
Inductive Thrown :=
| Carrying (e : Exn)
| ApiErrorWithoutData (message : string) (status : Z).

Definition carriesErrorData (thrown : Thrown) : bool :=
  match thrown with
  | Carrying _ => true
  | ApiErrorWithoutData _ _ => false
  end.

(** The statuses [handleApiError] has a [case] for. The handler of each
    starts by reading a property of [errorData]: [errorData.userMessage],
    and [errorData.validationErrors] for a 422. *)
Definition listedStatus (status : Z) : bool :=
  bool_decide
    (status ∈ [400; 401; 403; 404; 409; 413; 422; 429; 500; 502; 503; 504]).

(** [handleError] on any thrown value. On an [ApiError] without
    [errorData] the handler of a listed status throws the [TypeError] of
    reading a property of [undefined], and [handleError] shows and returns
    nothing; the [default] case reads [error.message] only. *)
Definition handleThrown (thrown : Thrown) (context : option string)
  : Exn + ErrorNotification.t :=
  match thrown with
  | Carrying e => inr (handleError e context)
  | ApiErrorWithoutData message status =>
      if listedStatus status
      then inl (JsError "TypeError" "Cannot read properties of undefined")
      else inr (handleGenericApiError message context)
  end.

(** [handleAuthenticationError]: what it does to [localStorage] and to
    the page. *)
Definition handleAuthenticationError (localStorage : Storage)
  : Storage * ActionEffect :=
  (delete "refreshToken" (delete "token" localStorage), SetLocationHref "/auth").

(** The notification [handleNetworkTimeout] shows. *)
Definition handleNetworkTimeout : ErrorNotification.t :=
  notify warning "Request Timeout"
    "The request is taking longer than expected. Please wait or try again."
    5000 [].

(** The notification [handleOfflineError] shows. *)
Definition handleOfflineError : ErrorNotification.t :=
  notify info "You're Offline"
    "Some features may not be available while you're offline. Please check your internet connection."
    0 [].

(** [createCustomNotification(type, title, message, options?)]; absent
    [actions] are the empty list. *)
Definition createCustomNotification (ty : Severity) (title message : string)
  (duration : option Z) (actions : list NotificationAction.t)
  : ErrorNotification.t :=
  ErrorNotification.mk ty title message (Some (js_or_number duration 5000))
    actions.

(** The notification [showErrorNotification] shows. *)
Definition showErrorNotification (title message : string)
  (duration : option Z) (actions : list NotificationAction.t)
  : ErrorNotification.t :=
  createCustomNotification error title message duration actions.

(** The notification [showSuccessNotification] shows; [duration] defaults
    to 3000 when it is not passed. *)
Definition showSuccessNotification (title message : string)
  (duration : option Z) : ErrorNotification.t :=
  createCustomNotification info title message (Some (default 3000 duration)) [].

End ErrorHandler.

(** * services/apiService.ts: the transport client *)

(** The value [response.json()] resolves to, read at the two shapes the
    client casts it to: the declared domain shape [T] on the success path and
    a structured fault body on the failure path. *)
Module Decoded.
Record t (T : Type) := mk {
  data : T;
  errorData : ErrorResponse.t
}.
Arguments mk {T}.
Arguments data {T}.
Arguments errorData {T}.
End Decoded.

(** A [Response] of [fetch]. [contentLength] is
    [response.headers.get('Content-Length')]; [body] is the payload as
    received; [json] is how [response.json()] settles: [inl msg] when it
    rejects with a [SyntaxError], [inr None] when the body is the JSON value
    [null], [inr (Some d)] for any other JSON value. *)
Module Response.
Record t (T : Type) := mk {
  status : Z;
  statusText : string;
  contentLength : option string;
  body : string;
  json : string + option (Decoded.t T)
}.
Arguments mk {T}.
Arguments status {T}.
Arguments statusText {T}.
Arguments contentLength {T}.
Arguments body {T}.
Arguments json {T}.

(** [response.ok] *)
Definition ok {T} (response : t T) : bool :=
  (200 <=? status response) && (status response <=? 299).
End Response.

(** How one [fetch] call settles: with a response, or rejected with an
    error (an [AbortError] when the timeout fired, a [TypeError] when the
    network failed). *)
Inductive FetchOutcome (T : Type) :=
| Responded (response : Response.t T)
| Rejected (name message : string).
Arguments Responded {T}.
Arguments Rejected {T}.

(** A request body; [JSON.stringify(payload)] is kept symbolic. *)
Inductive RequestBody :=
| LoginBody (payload : LoginPayload.t)
| RegisterBody (payload : RegisterPayload.t)
| SendMessageBody (payload : SendMessagePayload.t).

Module RequestInit.
Record t := mk {
  method : option string;
  headers : gmap string string;
  body : option RequestBody
}.
Definition empty : t := mk None ∅ None.
End RequestInit.

(** What a call of the transport client does to the outside, in order. *)
Inductive NetEvent :=
| Fetch (url : string) (init : RequestInit.t)
| Delay (ms : Z).

(** The outcome of an [async] call: a thrown value or a result. *)
Abbreviation Outcome A := (Exn + A)%type.

Module ApiService.

Definition retryAttempts : nat := API_CONFIG.RETRY_ATTEMPTS.
Definition retryDelay : Z := API_CONFIG.RETRY_DELAY.

Definition getToken (localStorage : Storage) : option string :=
  localStorage !! API_CONFIG.STORAGE_KEYS.TOKEN.

Definition getHeaders (localStorage : Storage) : gmap string string :=
  let headers : gmap string string :=
    <["Accept" := "application/json"]>
      (<["Content-Type" := "application/json"]> ∅) in
  let token := getToken localStorage in
  if truthy token
  then <["Authorization" := "Bearer " +:+ default "" token]> headers
  else headers.

(** Reading a property of [null] throws a [TypeError]. *)
Definition nullDereference : Exn :=
  JsError "TypeError" "Cannot read properties of null".

(** [handleResponse]. The first component says whether [response.json()]
    was called; the result [None] is [null]. On a status that is not a
    success status, [errorData.message] is read after the [try], so a body
    that is the JSON value [null] makes the function throw a [TypeError]
    and no [ApiError]. *)
Definition handleResponse {T} (response : Response.t T)
  : bool * Outcome (option T) :=
  if negb (Response.ok response) then
    match Response.json response with
    | inr None => (true, inl nullDereference)
    | inr (Some d) =>
        let errorData := Decoded.errorData d in
        (true,
         inl (ApiError
                (js_or (ErrorResponse.message errorData) "API request failed")
                (Response.status response) errorData))
    | inl _ =>
        let errorData :=
          ErrorResponse.mk (Some (Response.statusText response)) None None in
        (true,
         inl (ApiError
                (js_or (ErrorResponse.message errorData) "API request failed")
                (Response.status response) errorData))
    end
  else if Z.eqb (Response.status response) 204
          || bool_decide (Response.contentLength response = Some "0")
  then (false, inr None)
  else
    match Response.json response with
    | inr d => (true, inr (Decoded.data <$> d))
    | inl msg => (true, inl (JsError "SyntaxError" msg))
    end.

Definition shouldRetry (e : Exn) : bool :=
  match e with
  | ApiError _ status _ => 500 <=? status
  | _ => true
  end.

(** The [try] block of [makeRequest]: what [fetch] followed by
    [handleResponse] returns or throws. *)
Definition attempt {T} (settled : FetchOutcome T) : Outcome (option T) :=
  match settled with
  | Responded response => snd (handleResponse response)
  | Rejected name message => inl (JsError name message)
  end.

(** [{ ...options, headers: { ...this.getHeaders(), ...options.headers } }] *)
Definition withHeaders (localStorage : Storage) (options : RequestInit.t)
  : RequestInit.t :=
  RequestInit.mk (RequestInit.method options)
    (RequestInit.headers options ∪ getHeaders localStorage)
    (RequestInit.body options).

(** The [fetch(url, ...)] call of [makeRequest]. *)
Definition fetchCall (localStorage : Storage) (url : string)
  (options : RequestInit.t) : NetEvent :=
  Fetch url (withHeaders localStorage options).

(** [makeRequest]. [fetch n] is how the [n]-th call of [fetch] for this
    request settles; the trace lists the [fetch] calls and the delays. *)
Fixpoint makeRequest {T} (localStorage : Storage) (fetch : nat -> FetchOutcome T)
  (url : string) (options : RequestInit.t) (n : nat) (retries : nat)
  : list NetEvent * Outcome (option T) :=
  let call := fetchCall localStorage url options in
  match attempt (fetch n) with
  | inr result => ([call], inr result)
  | inl (ApiError message status errorData) =>
      if Z.eqb status 422
      then ([call],
            inl (ValidationError
                   (default [] (ErrorResponse.validationErrors errorData))))
      else ([call], inl (ApiError message status errorData))
  | inl e =>
      if bool_decide (exn_name e = Some "AbortError")
      then ([call], inl (NetworkError "Request timeout"))
      else
        match retries with
        | S retries' =>
            if shouldRetry e then
              let '(trace, result) :=
                makeRequest localStorage fetch url options (S n) retries' in
              (call :: Delay retryDelay :: trace, result)
            else
              ([call],
               inl (NetworkError (js_or (exn_message e) "Network request failed")))
        | O =>
            ([call],
             inl (NetworkError (js_or (exn_message e) "Network request failed")))
        end
  end.

(** The number of [fetch] calls in a trace. *)
Fixpoint attempts (trace : list NetEvent) : nat :=
  match trace with
  | [] => O
  | Fetch _ _ :: trace' => S (attempts trace')
  | Delay _ :: trace' => attempts trace'
  end.

(** The delays in a trace, in order. *)
Fixpoint delays (trace : list NetEvent) : list Z :=
  match trace with
  | [] => []
  | Fetch _ _ :: trace' => delays trace'
  | Delay ms :: trace' => ms :: delays trace'
  end.

Definition mapUserResponseToUser (res : UserResponse.t) : User.t :=
  User.mk (UserResponse.id res) (UserResponse.full_name res)
    (UserResponse.user_name res) (UserResponse.email res)
    (UserResponse.avatar_url res)
    (if UserResponse.status res then online else offline).

Definition mapMessageResponseToMessage (res : MessageResponse.t) : Message.t :=
  Message.mk (MessageResponse.id res) (MessageResponse.senderId res)
    (MessageResponse.roomId res) (MessageResponse.content res)
    (MessageResponse.sentAt res) (MessageResponse.messageType res)
    (default false (MessageResponse.isEdited res))
    (MessageResponse.editedAt res)
    (mapUserResponseToUser <$> MessageResponse.sender res).

Definition mapWebSocketMessageToMessage (wsMessage : WebSocketMessage.t)
  : Message.t :=
  Message.mk (WebSocketMessage.id wsMessage) (WebSocketMessage.senderId wsMessage)
    (WebSocketMessage.roomId wsMessage) (WebSocketMessage.text wsMessage)
    (WebSocketMessage.timestamp wsMessage)
    (WebSocketMessage.messageType wsMessage) false None None.

(** Reading a property of [undefined] throws a [TypeError]. *)
Definition undefinedDereference : Exn :=
  JsError "TypeError" "Cannot read properties of undefined".

Section Authentication.

(** [JSON.stringify] on a [User]. *)
Variable JSON_stringify : User.t -> string.

(** The part of [login] and [register] after the request: the token is
    stored, then the user is mapped, which throws a [TypeError] when the
    response has no [user], then the user is stored. *)
Definition persistSession (localStorage : Storage)
  (response : Outcome (option AuthResponse.t))
  : Storage * Outcome (User.t * string) :=
  match response with
  | inl e => (localStorage, inl e)
  | inr None => (localStorage, inl nullDereference)
  | inr (Some response) =>
      let localStorage1 :=
        <[API_CONFIG.STORAGE_KEYS.TOKEN := AuthResponse.token response]>
          localStorage in
      match AuthResponse.user response with
      | None => (localStorage1, inl undefinedDereference)
      | Some res =>
          let user := mapUserResponseToUser res in
          let localStorage2 :=
            <[API_CONFIG.STORAGE_KEYS.USER := JSON_stringify user]>
              localStorage1 in
          (localStorage2, inr (user, AuthResponse.token response))
      end
  end.

Definition login (localStorage : Storage)
  (fetch : nat -> FetchOutcome AuthResponse.t) (payload : LoginPayload.t)
  : list NetEvent * Storage * Outcome (User.t * string) :=
  let '(trace, response) :=
    makeRequest localStorage fetch API_CONFIG.ENDPOINTS.AUTH.LOGIN
      (RequestInit.mk (Some "POST") ∅ (Some (LoginBody payload)))
      O retryAttempts in
  let '(localStorage', result) := persistSession localStorage response in
  (trace, localStorage', result).

Definition register (localStorage : Storage)
  (fetch : nat -> FetchOutcome AuthResponse.t) (payload : RegisterPayload.t)
  : list NetEvent * Storage * Outcome (User.t * string) :=
  let '(trace, response) :=
    makeRequest localStorage fetch API_CONFIG.ENDPOINTS.AUTH.REGISTER
      (RequestInit.mk (Some "POST") ∅ (Some (RegisterBody payload)))
      O retryAttempts in
  let '(localStorage', result) := persistSession localStorage response in
  (trace, localStorage', result).

End Authentication.

Definition getProfile (localStorage : Storage)
  (fetch : nat -> FetchOutcome UserResponse.t)
  : list NetEvent * Outcome User.t :=
  let '(trace, response) :=
    makeRequest localStorage fetch API_CONFIG.ENDPOINTS.AUTH.PROFILE
      RequestInit.empty O retryAttempts in
  (trace,
   match response with
   | inl e => inl e
   | inr None => inl nullDereference
   | inr (Some res) => inr (mapUserResponseToUser res)
   end).

(** [logout]: the request's failure is only logged; the two keys are
    removed in the [finally] block. *)
Definition logout (localStorage : Storage) (fetch : nat -> FetchOutcome unit)
  : list NetEvent * Storage :=
  let '(trace, _) :=
    makeRequest localStorage fetch API_CONFIG.ENDPOINTS.AUTH.LOGOUT
      (RequestInit.mk (Some "POST") ∅ None) O retryAttempts in
  (trace,
   delete API_CONFIG.STORAGE_KEYS.USER
     (delete API_CONFIG.STORAGE_KEYS.TOKEN localStorage)).

Definition sendMessage (localStorage : Storage)
  (fetch : nat -> FetchOutcome MessageResponse.t)
  (roomId : string) (payload : SendMessagePayload.t)
  : list NetEvent * Outcome Message.t :=
  let '(trace, response) :=
    makeRequest localStorage fetch (API_CONFIG.ENDPOINTS.CHAT.SEND_MESSAGE roomId)
      (RequestInit.mk (Some "POST") ∅ (Some (SendMessageBody payload)))
      O retryAttempts in
  (trace,
   match response with
   | inl e => inl e
   | inr None => inl nullDereference
   | inr (Some res) => inr (mapMessageResponseToMessage res)
   end).

Definition mapChatRoomResponseToChat (res : ChatRoomResponse.t) : Chat.t :=
  Chat.mk (ChatRoomResponse.id res)
    (if ChatRoomResponse.isGroup res then group else dm)
    (ChatRoomResponse.name res)
    (map mapUserResponseToUser (ChatRoomResponse.participants res))
    []
    (ChatRoomResponse.avatarUrl res)
    (mapMessageResponseToMessage <$> ChatRoomResponse.lastMessage res)
    (ChatRoomResponse.creatorId res).

Definition getRooms (localStorage : Storage)
  (fetch : nat -> FetchOutcome (list ChatRoomResponse.t))
  : list NetEvent * Outcome (list Chat.t) :=
  let '(trace, response) :=
    makeRequest localStorage fetch API_CONFIG.ENDPOINTS.CHAT.ROOMS
      RequestInit.empty O retryAttempts in
  (trace,
   match response with
   | inl e => inl e
   | inr None => inl nullDereference
   | inr (Some res) => inr (map mapChatRoomResponseToChat res)
   end).

Definition getRoomMessages (localStorage : Storage)
  (fetch : nat -> FetchOutcome (list MessageResponse.t)) (roomId : string)
  : list NetEvent * Outcome (list Message.t) :=
  let '(trace, response) :=
    makeRequest localStorage fetch (API_CONFIG.ENDPOINTS.CHAT.MESSAGES roomId)
      RequestInit.empty O retryAttempts in
  (trace,
   match response with
   | inl e => inl e
   | inr None => inl nullDereference
   | inr (Some res) => inr (map mapMessageResponseToMessage res)
   end).

End ApiService.

(** * contexts/AuthContext.tsx *)

Module AuthState.
Record t := mk {
  user : option User.t;
  isLoading : bool;
  isAuthenticated : bool;
  token : option string
}.
(** The [useState] initial values. *)
Definition initial : t := mk None true false None.
End AuthState.

(** A run of a provider operation: the provider state, [localStorage], the
    requests issued and the notifications shown when it completes. *)
Module AuthRun.
Record t := mk {
  state : AuthState.t;
  localStorage : Storage;
  trace : list NetEvent;
  notifications : list ErrorNotification.t
}.
End AuthRun.

Module AuthProvider.

(** [checkAuthStatus], the effect run once on startup. [fetchProfile] and
    [fetchLogout] say how the [fetch] calls of the profile request and of the
    logout request settle. *)
Definition checkAuthStatus (st : AuthState.t) (localStorage : Storage)
  (fetchProfile : nat -> FetchOutcome UserResponse.t)
  (fetchLogout : nat -> FetchOutcome unit) : AuthRun.t :=
  let storedToken := localStorage !! "token" in
  if truthy storedToken then
    match ApiService.getProfile localStorage fetchProfile with
    | (trace, inr userProfile) =>
        AuthRun.mk (AuthState.mk (Some userProfile) false true storedToken)
          localStorage trace []
    | (trace, inl e) =>
        let notification := ErrorHandler.handleError e (Some "checkAuthStatus") in
        let '(trace', localStorage') := ApiService.logout localStorage fetchLogout in
        AuthRun.mk (AuthState.mk None false false None)
          localStorage' (trace ++ trace') [notification]
    end
  else
    AuthRun.mk
      (AuthState.mk (AuthState.user st) false false (AuthState.token st))
      localStorage [] [].

Section Authentication.

Variable JSON_stringify : User.t -> string.

(** [login]; the second component is the error re-thrown to the caller. *)
Definition login (st : AuthState.t) (localStorage : Storage)
  (fetch : nat -> FetchOutcome AuthResponse.t) (payload : LoginPayload.t)
  : AuthRun.t * option Exn :=
  match ApiService.login JSON_stringify localStorage fetch payload with
  | (trace, localStorage', inr (user, token)) =>
      (AuthRun.mk (AuthState.mk (Some user) false true (Some token))
         localStorage' trace [], None)
  | (trace, localStorage', inl e) =>
      (AuthRun.mk
         (AuthState.mk (AuthState.user st) false
            (AuthState.isAuthenticated st) (AuthState.token st))
         localStorage' trace [ErrorHandler.handleError e (Some "login")],
       Some e)
  end.

Definition register (st : AuthState.t) (localStorage : Storage)
  (fetch : nat -> FetchOutcome AuthResponse.t) (payload : RegisterPayload.t)
  : AuthRun.t * option Exn :=
  match ApiService.register JSON_stringify localStorage fetch payload with
  | (trace, localStorage', inr (user, token)) =>
      (AuthRun.mk (AuthState.mk (Some user) false true (Some token))
         localStorage' trace [], None)
  | (trace, localStorage', inl e) =>
      (AuthRun.mk
         (AuthState.mk (AuthState.user st) false
            (AuthState.isAuthenticated st) (AuthState.token st))
         localStorage' trace [ErrorHandler.handleError e (Some "register")],
       Some e)
  end.

End Authentication.

(** [logout]. [apiService.logout] catches the failure of its own request,
    so the [catch] block of this function is never entered; the [finally]
    block resets the session. *)
Definition logout (st : AuthState.t) (localStorage : Storage)
  (fetch : nat -> FetchOutcome unit) : AuthRun.t :=
  let '(trace, localStorage') := ApiService.logout localStorage fetch in
  AuthRun.mk (AuthState.mk None false false None) localStorage' trace [].

End AuthProvider.

(** * contexts/ChatContext.tsx *)

(** The bindings a render of [ChatProvider] gives to the closures it
    creates: the [useState] values and the values of [useAuth]. A handler
    keeps the bindings of the render that created it. *)
Module Render.
Record t := mk {
  chats : list Chat.t;
  activeChat : option Chat.t;
  token : option string;
  isAuthenticated : bool;
  currentUser : option User.t
}.
End Render.

(** The STOMP client held in [stompClientRef]: what the library keeps
    ([connected], the live subscriptions) and the configuration it was
    built with, whose [onConnect] closure belongs to [render]. *)
Module Client.
Record t := mk {
  connected : bool;
  subscriptions : list string;
  connectHeaders : string;
  reconnectDelay : Z;
  render : Render.t
}.
End Client.

(** The state of [ChatProvider] that outlives a render: the [useState]
    cells, written through their setters, and the [useRef] cell. *)
Module Store.
Record t := mk {
  chats : list Chat.t;
  activeChat : option Chat.t;
  isLoading : bool;
  isWebSocketConnected : bool;
  stompClientRef : option Client.t
}.
Definition initial : t := mk [] None false false None.

Definition setChats (f : list Chat.t -> list Chat.t) (s : t) : t :=
  mk (f (chats s)) (activeChat s) (isLoading s) (isWebSocketConnected s)
     (stompClientRef s).
Definition setActiveChat (f : option Chat.t -> option Chat.t) (s : t) : t :=
  mk (chats s) (f (activeChat s)) (isLoading s) (isWebSocketConnected s)
     (stompClientRef s).
Definition setIsWebSocketConnected (b : bool) (s : t) : t :=
  mk (chats s) (activeChat s) (isLoading s) b (stompClientRef s).
Definition setIsLoading (b : bool) (s : t) : t :=
  mk (chats s) (activeChat s) b (isWebSocketConnected s) (stompClientRef s).
Definition setStompClient (c : option Client.t) (s : t) : t :=
  mk (chats s) (activeChat s) (isLoading s) (isWebSocketConnected s) c.
End Store.

(** A run of [sendMessage]: the store, the requests issued and the
    notifications shown when the call completes. *)
Module SendRun.
Record t := mk {
  store : Store.t;
  trace : list NetEvent;
  notifications : list ErrorNotification.t
}.
End SendRun.

Module ChatProvider.

(** The render that sees store [s] under the session [auth]. *)
Definition render (auth : AuthState.t) (s : Store.t) : Render.t :=
  Render.mk (Store.chats s) (Store.activeChat s) (AuthState.token auth)
    (AuthState.isAuthenticated auth) (AuthState.user auth).

Definition inboxDestination (userId : string) : string :=
  "/user/" +:+ userId +:+ "/queue/messages".

Definition roomDestination (roomId : string) : string :=
  "/topic/room/" +:+ roomId.

(** [activeChat?.id === roomId] *)
Definition isActive (activeChat : option Chat.t) (roomId : string) : bool :=
  match activeChat with
  | Some chat => bool_decide (Chat.id chat = roomId)
  | None => false
  end.

(** [client.subscribe(destination, ...)] *)
Definition subscribe (destination : string) (c : Client.t) : Client.t :=
  Client.mk (Client.connected c) (Client.subscriptions c ++ [destination])
    (Client.connectHeaders c) (Client.reconnectDelay c) (Client.render c).

Definition subscribeToRoom (roomId : string) (s : Store.t) : Store.t :=
  match Store.stompClientRef s with
  | Some c =>
      if Client.connected c
      then Store.setStompClient (Some (subscribe (roomDestination roomId) c)) s
      else s
  | None => s
  end.

Definition connectWebSocket (r : Render.t) (s : Store.t) : Store.t :=
  if negb (truthy (Render.token r)) || negb (Render.isAuthenticated r)
     || match Store.stompClientRef s with
        | Some c => Client.connected c
        | None => false
        end
  then s
  else
    Store.setStompClient
      (Some (Client.mk false []
               ("Bearer " +:+ default "" (Render.token r)) 5000 r)) s.

(** The library has (re)established the session: it marks the client
    connected and calls the configured [onConnect], which belongs to the
    render that built the client. [currentUser!.id] throws when there is no
    user, which ends the callback. *)
Definition onConnect (s : Store.t) : Store.t :=
  match Store.stompClientRef s with
  | None => s
  | Some c =>
      let r := Client.render c in
      let c1 := Client.mk true (Client.subscriptions c)
                  (Client.connectHeaders c) (Client.reconnectDelay c) r in
      let s1 := Store.setIsWebSocketConnected true
                  (Store.setStompClient (Some c1) s) in
      match Render.currentUser r with
      | None => s1
      | Some currentUser =>
          let s2 := Store.setStompClient
                      (Some (subscribe (inboxDestination (User.id currentUser)) c1))
                      s1 in
          foldl (fun acc chat => subscribeToRoom (Chat.id chat) acc) s2
            (Render.chats r)
      end
  end.

(** The socket closed: the library forgets the subscriptions and calls
    [onWebSocketClose]; it connects again after [reconnectDelay], which ends
    in [onConnect]. *)
Definition onWebSocketClose (s : Store.t) : Store.t :=
  Store.setIsWebSocketConnected false
    (Store.setStompClient
       ((fun c => Client.mk false [] (Client.connectHeaders c)
                    (Client.reconnectDelay c) (Client.render c))
          <$> Store.stompClientRef s) s).

(** The destinations currently subscribed to. *)
Definition subscribed (s : Store.t) : list string :=
  match Store.stompClientRef s with
  | Some c => Client.subscriptions c
  | None => []
  end.

(** The success path of [loadChats], from the point where [getRooms] has
    resolved with [loadedChats]. *)
Definition loadChats_resolved (r : Render.t) (loadedChats : list Chat.t)
  (s : Store.t) : Store.t :=
  let s1 := Store.setChats (fun _ => loadedChats) s in
  Store.setIsLoading false
    match loadedChats, Render.activeChat r with
    | first :: _, None => Store.setActiveChat (fun _ => Some first) s1
    | _, _ => s1
    end.

(** [prev.map(chat => chat.id === roomId ? { ...chat, messages: [...chat.messages, m] } : chat)] *)
Definition appendToRoom (roomId : string) (m : Message.t)
  (prev : list Chat.t) : list Chat.t :=
  map (fun chat =>
         if decide (Chat.id chat = roomId)
         then Chat.with_messages chat (Chat.messages chat ++ [m])
         else chat) prev.

(** [prev.map(chat => chat.id === roomId ? { ...chat, messages: chat.messages.filter(m => m.id !== id) } : chat)] *)
Definition removeFromRoom (roomId : string) (id : string)
  (prev : list Chat.t) : list Chat.t :=
  map (fun chat =>
         if decide (Chat.id chat = roomId)
         then Chat.with_messages chat
                (filter (fun m => Message.id m ≠ id) (Chat.messages chat))
         else chat) prev.

Definition handleWebSocketMessage (r : Render.t)
  (wsMessage : WebSocketMessage.t) (s : Store.t) : Store.t :=
  match WebSocketMessage.type wsMessage with
  | NEW_MESSAGE =>
      let newMessage := ApiService.mapWebSocketMessageToMessage wsMessage in
      let s1 :=
        Store.setChats
          (map (fun chat =>
                  if decide (Chat.id chat = Message.roomId newMessage)
                  then Chat.with_messages_last chat
                         (Chat.messages chat ++ [newMessage]) newMessage
                  else chat)) s in
      if isActive (Render.activeChat r) (Message.roomId newMessage)
      then Store.setActiveChat
             (fmap (fun prev =>
                      Chat.with_messages_last prev
                        (Chat.messages prev ++ [newMessage]) newMessage)) s1
      else s1
  | _ => s
  end.

(** The provisional message. [now] is [Date.now()] and [date] is the
    [new Date()] read after it. *)
Definition optimisticMessage (currentUser : User.t) (roomId content : string)
  (messageType : MessageType) (now date : Z) : Message.t :=
  Message.mk ("temp-" +:+ pretty now) (User.id currentUser) roomId content
    date messageType false None (Some currentUser).

(** The two state updates of [sendMessage] before the [await]. *)
Definition applyOptimistic (r : Render.t) (roomId : string) (m : Message.t)
  (s : Store.t) : Store.t :=
  let s1 := Store.setChats (appendToRoom roomId m) s in
  if isActive (Render.activeChat r) roomId
  then Store.setActiveChat
         (fmap (fun prev =>
                  Chat.with_messages prev (Chat.messages prev ++ [m]))) s1
  else s1.

(** The state update of the [catch] block of [sendMessage]. *)
Definition revertOptimistic (roomId : string) (m : Message.t) (s : Store.t)
  : Store.t :=
  Store.setChats (removeFromRoom roomId (Message.id m)) s.

(** [sendMessage] up to its [await]: [None] when it returns at once. *)
Definition sendMessage_pending (r : Render.t) (roomId content : string)
  (messageType : MessageType) (now date : Z) (s : Store.t)
  : option (Message.t * Store.t) :=
  match Render.currentUser r with
  | None => None
  | Some currentUser =>
      let m := optimisticMessage currentUser roomId content messageType now date in
      Some (m, applyOptimistic r roomId m s)
  end.

(** [sendMessage], run to completion with no other update in between. *)
Definition sendMessage (r : Render.t) (localStorage : Storage)
  (fetch : nat -> FetchOutcome MessageResponse.t)
  (roomId content : string) (messageType : MessageType) (now date : Z)
  (s : Store.t) : SendRun.t :=
  match sendMessage_pending r roomId content messageType now date s with
  | None => SendRun.mk s [] []
  | Some (m, s1) =>
      match ApiService.sendMessage localStorage fetch roomId
              (SendMessagePayload.mk content messageType) with
      | (trace, inr _) => SendRun.mk s1 trace []
      | (trace, inl e) =>
          SendRun.mk (revertOptimistic roomId m s1) trace
            [ErrorHandler.handleError e (Some "sendMessage")]
      end
  end.

(** The success path of [createRoom], from the point where the request has
    resolved with [newRoom]. *)
Definition createRoom_resolved (newRoom : Chat.t) (s : Store.t) : Store.t :=
  subscribeToRoom (Chat.id newRoom) (Store.setChats (fun prev => (prev ++ [newRoom])%list) s).

(** [messages.sort((a, b) => a.timestamp.getTime() - b.timestamp.getTime())]:
    [Array.prototype.sort] is stable, so the result is the stable sort by
    timestamp; it is computed here by insertion from the right. *)
Fixpoint insertByTimestamp (m : Message.t) (sorted : list Message.t)
  : list Message.t :=
  match sorted with
  | [] => [m]
  | m' :: rest =>
      if Message.timestamp m <=? Message.timestamp m'
      then m :: m' :: rest
      else m' :: insertByTimestamp m rest
  end.

Definition sortByTimestamp (messages : list Message.t) : list Message.t :=
  foldr insertByTimestamp [] messages.

(** The order of the comparator: [a] is not later than [b]. *)
Definition notLater (a b : Message.t) : Prop :=
  Message.timestamp a <= Message.timestamp b.

(** [loadChats], run to completion from the render [r]. *)
Definition loadChats (r : Render.t) (localStorage : Storage)
  (fetch : nat -> FetchOutcome (list ChatRoomResponse.t)) (s : Store.t)
  : SendRun.t :=
  match ApiService.getRooms localStorage fetch with
  | (trace, inr loadedChats) =>
      SendRun.mk (loadChats_resolved r loadedChats (Store.setIsLoading true s))
        trace []
  | (trace, inl e) =>
      SendRun.mk
        (Store.setIsLoading false
           (Store.setChats (fun _ => []) (Store.setIsLoading true s)))
        trace [ErrorHandler.handleError e (Some "loadChats")]
  end.

(** [loadMessages], run to completion. *)
Definition loadMessages (localStorage : Storage)
  (fetch : nat -> FetchOutcome (list MessageResponse.t)) (roomId : string)
  (s : Store.t) : SendRun.t :=
  match ApiService.getRoomMessages localStorage fetch roomId with
  | (trace, inr messages) =>
      SendRun.mk
        (Store.setChats
           (map (fun chat =>
                   if decide (Chat.id chat = roomId)
                   then Chat.with_messages chat (sortByTimestamp messages)
                   else chat)) s)
        trace []
  | (trace, inl e) =>
      SendRun.mk s trace [ErrorHandler.handleError e (Some "loadMessages")]
  end.

(** [handleSetActiveChat], the [setActiveChat] the provider exports. *)
Definition handleSetActiveChat (localStorage : Storage)
  (fetch : nat -> FetchOutcome (list MessageResponse.t))
  (chat : option Chat.t) (s : Store.t) : SendRun.t :=
  let s1 := Store.setActiveChat (fun _ => chat) s in
  match chat with
  | Some c =>
      match Chat.messages c with
      | [] => loadMessages localStorage fetch (Chat.id c) s1
      | _ :: _ => SendRun.mk s1 [] []
      end
  | None => SendRun.mk s1 [] []
  end.

(** [createRoom], from the point where [apiService.createRoom] has
    settled with [created]. *)
Definition createRoom_settled (created : Outcome Chat.t) (s : Store.t)
  : Store.t * list ErrorNotification.t :=
  match created with
  | inr newRoom => (createRoom_resolved newRoom s, [])
  | inl e => (s, [ErrorHandler.handleError e (Some "createRoom")])
  end.

(** [sendTypingIndicator]: the frames published, as destination and the
    [userId] and [isTyping] of the body. *)
Definition sendTypingIndicator (r : Render.t) (roomId : string)
  (isTyping : bool) (s : Store.t) : list (string * option string * bool) :=
  match Store.stompClientRef s with
  | Some c =>
      if Client.connected c
      then [("/app/typing/" +:+ roomId, User.id <$> Render.currentUser r, isTyping)]
      else []
  | None => []
  end.

End ChatProvider.

(** * components/notifications/Notification.tsx *)

Module NotificationView.

(** [const { duration = 5000 } = notification] *)
Definition duration (notification : ErrorNotification.t) : Z :=
  default 5000 (ErrorNotification.duration notification).

(** The time, in milliseconds from mounting, at which the component calls
    [onClose] by itself: the [duration] timer calls [handleClose], which
    calls [onClose] 300 ms later. [None] when no timer is started. *)
Definition autoClose (notification : ErrorNotification.t) : option Z :=
  if 0 <? duration notification
  then Some (duration notification + 300)
  else None.

Definition getBackgroundColor (notification : ErrorNotification.t) : string :=
  match ErrorNotification.type notification with
  | error => "bg-red-100 border-red-500"
  | warning => "bg-yellow-100 border-yellow-500"
  | info => "bg-blue-100 border-blue-500"
  end.

End NotificationView.

(** * components/notifications/NotificationProvider.tsx *)

(** A notification in the provider's list: [{ ...notification, id }]. *)
Module Shown.
Record t := mk {
  id : string;
  notification : ErrorNotification.t
}.
End Shown.

Module NotificationProvider.

(** [addNotification]; [now] is [Date.now()]. *)
Definition addNotification (now : Z) (notification : ErrorNotification.t)
  (prev : list Shown.t) : list Shown.t :=
  prev ++ [Shown.mk (pretty now) notification].

Definition removeNotification (id : string) (prev : list Shown.t)
  : list Shown.t :=
  filter (fun n => Shown.id n <> id) prev.

End NotificationProvider.

(** * Classification of a settled [fetch] call

    The vocabulary the properties below are stated in. *)

(** The call failed without any response and not because the deadline
    fired: a network failure. *)
Definition networkFailure {T} (settled : FetchOutcome T) : bool :=
  match settled with
  | Rejected name _ => negb (bool_decide (name = "AbortError"))
  | Responded _ => false
  end.



(** The call was answered with a status of 500 or more, the statuses
    [shouldRetry] accepts. *)
Definition serverFault {T} (settled : FetchOutcome T) : bool :=
  match settled with
  | Responded response => 500 <=? Response.status response
  | Rejected _ _ => false
  end.

(** The call was answered with a success status and a body that is read
    but is not JSON. *)
Definition undecodable {T} (settled : FetchOutcome T) : bool :=
  match settled with
  | Responded response =>
      Response.ok response
      && negb (Z.eqb (Response.status response) 204)
      && negb (bool_decide (Response.contentLength response = Some "0"))
      && match Response.json response with inl _ => true | inr _ => false end
  | Rejected _ _ => false
  end.

(** The call was answered with a status that is not a success status and
    a body that is the JSON value [null]. *)
Definition nullFault {T} (settled : FetchOutcome T) : bool :=
  match settled with
  | Responded response =>
      negb (Response.ok response)
      && match Response.json response with
         | inr None => true
         | _ => false
         end
  | Rejected _ _ => false
  end.

(** The field errors a response carries, the empty record when none. *)
Definition fieldErrors {T} (response : Response.t T) : list (string * string) :=
  match Response.json response with
  | inr (Some d) =>
      default [] (ErrorResponse.validationErrors (Decoded.errorData d))
  | inr None | inl _ => []
  end.


(** * Message ids

    [id] occurs in no message of a room [roomId] among [chats]. *)
Definition freshIn (roomId id : string) (chats : list Chat.t) : Prop :=
  Forall (fun chat =>
            Chat.id chat = roomId ->
            Forall (fun m' => Message.id m' <> id) (Chat.messages chat))
    chats.



(** * The dispatch table of the design document

    The table of the error classifier, row by row as the document gives it:
    severity, auto-dismiss time in milliseconds, recovery action. The
    definitions of this module follow the document, not the code. *)

Inductive Recovery :=
| NoRecovery
| RedirectToLogin
| ReloadView
| RetryElseReload
| RetryNoFallback.

(** What the actions of a notification do when each is triggered. *)
Definition actionEffects (notification : ErrorNotification.t)
  (retryCallbacks : gmap string string) : list ActionEffect :=
  map (fun a => ErrorHandler.run_action (NotificationAction.action a) retryCallbacks)
    (ErrorNotification.actions notification).

Module DispatchTable.

(** The rows of the table, in its order. *)
Inductive Row :=
| FieldErrors400_422
| Status400
| Status401
| Status403
| Status404
| Status409
| Status413
| Status429
| Status500
| Status502_503_504
| NetworkClass
| Unknown.

Definition entry (row : Row) : Severity * Z * Recovery :=
  match row with
  | FieldErrors400_422 => (error, 8000, NoRecovery)
  | Status400 => (error, 5000, NoRecovery)
  | Status401 => (error, 5000, RedirectToLogin)
  | Status403 => (error, 5000, NoRecovery)
  | Status404 => (error, 5000, NoRecovery)
  | Status409 => (error, 5000, ReloadView)
  | Status413 => (error, 5000, NoRecovery)
  | Status429 => (warning, 5000, NoRecovery)
  | Status500 => (error, 5000, RetryElseReload)
  | Status502_503_504 => (error, 8000, RetryNoFallback)
  | NetworkClass => (error, 8000, RetryNoFallback)
  | Unknown => (error, 5000, NoRecovery)
  end.

(** The row of a status. A 400 and a 422 are split on whether the fault
    comes with field errors; a 422 without any, like a status the table
    does not list, has the row "unknown". *)
Definition statusRow (status : Z) (withFieldErrors : bool) : Row :=
  if Z.eqb status 400 then
    if withFieldErrors then FieldErrors400_422 else Status400
  else if Z.eqb status 422 then
    if withFieldErrors then FieldErrors400_422 else Unknown
  else if Z.eqb status 401 then Status401
  else if Z.eqb status 403 then Status403
  else if Z.eqb status 404 then Status404
  else if Z.eqb status 409 then Status409
  else if Z.eqb status 413 then Status413
  else if Z.eqb status 429 then Status429
  else if Z.eqb status 500 then Status500
  else if Z.eqb status 502 || Z.eqb status 503 || Z.eqb status 504
  then Status502_503_504
  else Unknown.

(** A fault body comes with field errors when its [validationErrors]
    record names at least one field. *)
Definition withFieldErrors (errorData : ErrorResponse.t) : bool :=
  match ErrorResponse.validationErrors errorData with
  | Some (_ :: _) => true
  | Some [] | None => false
  end.

(** The row of a fault, as the document has it. A [ValidationError] is a
    422 re-classified because it carries field errors; an error of no
    class of the taxonomy has the row "unknown". *)
Definition rowOf (thrown : ErrorHandler.Thrown) : Row :=
  match thrown with
  | ErrorHandler.Carrying (ApiError _ status errorData) =>
      statusRow status (withFieldErrors errorData)
  | ErrorHandler.ApiErrorWithoutData _ status => statusRow status false
  | ErrorHandler.Carrying (NetworkError _) => NetworkClass
  | ErrorHandler.Carrying (ValidationError _) => FieldErrors400_422
  | ErrorHandler.Carrying (JsError _ _) | ErrorHandler.Carrying NonError =>
      Unknown
  end.

(** The row of a fault, amended: every 422, and every 400 whose body has
    a [validationErrors] record, with or without fields in it, has the row
    "400 / 422 with field errors". *)
Definition amendedRowOf (thrown : ErrorHandler.Thrown) : Row :=
  match thrown with
  | ErrorHandler.Carrying (ApiError _ status errorData) =>
      statusRow status
        (Z.eqb status 422
         || match ErrorResponse.validationErrors errorData with
            | Some _ => true
            | None => false
            end)
  | ErrorHandler.ApiErrorWithoutData _ status =>
      statusRow status (Z.eqb status 422)
  | ErrorHandler.Carrying (NetworkError _) => NetworkClass
  | ErrorHandler.Carrying (ValidationError _) => FieldErrors400_422
  | ErrorHandler.Carrying (JsError _ _) | ErrorHandler.Carrying NonError =>
      Unknown
  end.

(** The retry callback registered for a context, as the document has it:
    the one registered under the context string; none when the fault was
    handled without a context. *)
Definition registeredFor (context : option string)
  (retryCallbacks : gmap string string) : option string :=
  context ≫= fun key => retryCallbacks !! key.

(** The registry key of a context, amended: the context string, and
    ["default"] when the context is absent or the empty string. *)
Definition contextKey (context : option string) : string :=
  match context with
  | Some (String c rest) => String c rest
  | Some EmptyString | None => "default"
  end.

(** What each recovery action of the table does when the user triggers
    it, given the retry callback registered for the context at that time,
    if any. *)
Definition recoveryEffects (recovery : Recovery) (callback : option string)
  : list ActionEffect :=
  match recovery with
  | NoRecovery => []
  | RedirectToLogin => [SetLocationHref "/auth"]
  | ReloadView => [LocationReload]
  | RetryElseReload =>
      [match callback with
       | Some registered => CallRetryCallback registered
       | None => LocationReload
       end]
  | RetryNoFallback =>
      [match callback with
       | Some registered => CallRetryCallback registered
       | None => NoEffect
       end]
  end.

(** A notification matches a row: it has the severity and the
    auto-dismiss time of the row, and its actions do what the recovery
    action of the row says, [callback] being the retry callback registered
    for the context. *)
Definition matchesRow (notification : ErrorNotification.t)
  (retryCallbacks : gmap string string) (row : Row) (callback : option string)
  : Prop :=
  (ErrorNotification.type notification,
   ErrorNotification.duration notification,
   actionEffects notification retryCallbacks)
  = (fst (fst (entry row)),
     Some (snd (fst (entry row))),
     recoveryEffects (snd (entry row)) callback).

End DispatchTable.

(** * Concrete inputs

    The users, rooms, responses and network behaviours the examples below
    are run on. *)

Module Scenario.

Definition aliceResponse : UserResponse.t :=
  UserResponse.mk "u1" (Some "Alice") (Some "alice") "a@example.com" None true.

Definition alice : User.t := ApiService.mapUserResponseToUser aliceResponse.

Definition room1 : Chat.t := Chat.mk "r1" dm "Alice and Bob" [alice] [] None None None.

Definition noFault : ErrorResponse.t := ErrorResponse.mk None None None.

(** A [200 OK] answer whose body decodes to [v]. *)
Definition okResponse {T} (v : T) : Response.t T :=
  Response.mk 200 "OK" None "{}" (inr (Some (Decoded.mk v noFault))).

(** A [200 OK] answer with no body at all and no [Content-Length] header,
    as a chunked response has; [response.json()] rejects on it. *)
Definition emptyResponse {T} : Response.t T :=
  Response.mk 200 "OK" None "" (inl "Unexpected end of JSON input").

(** A [503] answer with a body that is not JSON. *)
Definition unavailableResponse {T} : Response.t T :=
  Response.mk 503 "Service Unavailable" None "upstream unavailable"
    (inl "Unexpected token u in JSON").

(** A [204 No Content] answer. *)
Definition noContentResponse {T} : Response.t T :=
  Response.mk 204 "No Content" None "" (inl "Unexpected end of JSON input").

(** A stand-in for [JSON.stringify] on a user; nothing below depends on
    the text it produces. *)
Definition stringify (user : User.t) : string :=
  "{id:" +:+ User.id user +:+ "}".

Definition credentials : LoginPayload.t :=
  LoginPayload.mk "a@example.com" (Some "pw").

(** Alice is signed in. *)
Definition session : AuthState.t :=
  AuthState.mk (Some alice) false true (Some "jwt-1").

(** The server's copy of a message Alice sent. *)
Definition echo : MessageResponse.t :=
  MessageResponse.mk "m-42" "r1" "u1" "hi" text 1000 None None None.


(** The network is down: every [fetch] rejects with a [TypeError]. *)
Definition offline {T} : nat -> FetchOutcome T :=
  fun _ => Rejected "TypeError" "Failed to fetch".

(** The server never answers within the deadline. *)
Definition deadline {T} : nat -> FetchOutcome T :=
  fun _ => Rejected "AbortError" "The operation was aborted".

(** The server answers every call with [200 OK] and no body. *)
Definition silent {T} : nat -> FetchOutcome T :=
  fun _ => Responded emptyResponse.

(** The server answers 503 to every call. *)
Definition unavailable {T} : nat -> FetchOutcome T :=
  fun _ => Responded unavailableResponse.

(** The network is down for the first three calls and answers the fourth. *)
Definition recovers {T} (v : T) : nat -> FetchOutcome T :=
  fun k => if (k <? 3)%nat then Rejected "TypeError" "Failed to fetch"
           else Responded (okResponse v).

(** Every call is answered with [v]. *)
Definition answers {T} (v : T) : nat -> FetchOutcome T :=
  fun _ => Responded (okResponse v).

(** A production build with neither URL configured. *)
Definition unconfiguredEnv : ProcessEnv.t :=
  ProcessEnv.mk (Some "production") None None.

(** A build with [NODE_ENV] unset. *)
Definition bareEnv : ProcessEnv.t := ProcessEnv.mk None None None.

End Scenario.

(** * Properties of the transport client *)

Module TransportFacts.
Import ApiService.

Section MakeRequest.

Context {T : Type}.
Variable localStorage : Storage.
Variable fetch : nat -> FetchOutcome T.
Variable url : string.
Variable options : RequestInit.t.

Abbreviation call := (fetchCall localStorage url options).

Lemma makeRequest_success (n retries : nat) (result : option T) :
  attempt (fetch n) = inr result ->
  makeRequest localStorage fetch url options n retries = ([call], inr result).
Proof. intros H. destruct retries; simpl; rewrite H; reflexivity. Qed.

Lemma makeRequest_api_error (n retries : nat) message status errorData :
  attempt (fetch n) = inl (ApiError message status errorData) ->
  makeRequest localStorage fetch url options n retries =
    ([call],
     inl (if Z.eqb status 422
          then ValidationError
                 (default [] (ErrorResponse.validationErrors errorData))
          else ApiError message status errorData)).
Proof.
  intros H. destruct retries; simpl; rewrite H; destruct (Z.eqb status 422);
    reflexivity.
Qed.

Lemma attempt_rejected (n : nat) name message :
  fetch n = Rejected name message ->
  attempt (fetch n) = inl (JsError name message).
Proof. intros ->. reflexivity. Qed.


Lemma makeRequest_network_failure_retry (n retries : nat) :
  networkFailure (fetch n) = true ->
  makeRequest localStorage fetch url options n (S retries) =
    (call :: Delay API_CONFIG.RETRY_DELAY
       :: fst (makeRequest localStorage fetch url options (S n) retries),
     snd (makeRequest localStorage fetch url options (S n) retries)).
Proof.
  unfold networkFailure. destruct (fetch n) as [|name message] eqn:E;
    [discriminate|].
  intros Hname. apply negb_true_iff, bool_decide_eq_false in Hname.
  simpl. rewrite E. simpl.
  rewrite bool_decide_eq_false_2 by congruence.
  destruct (makeRequest localStorage fetch url options (S n) retries).
  reflexivity.
Qed.

Lemma makeRequest_network_failure_exhausted (n : nat) :
  networkFailure (fetch n) = true ->
  exists message,
    makeRequest localStorage fetch url options n O =
      ([call], inl (NetworkError message)).
Proof.
  unfold networkFailure. destruct (fetch n) as [|name message] eqn:E;
    [discriminate|].
  intros Hname. apply negb_true_iff, bool_decide_eq_false in Hname.
  eexists. simpl. rewrite E. simpl.
  rewrite bool_decide_eq_false_2 by congruence. reflexivity.
Qed.

(** Every event of a run is the same [fetch] call, headers included, or
    the fixed delay. *)
Lemma makeRequest_events (retries n : nat) :
  Forall (fun ev => ev = call \/ ev = Delay API_CONFIG.RETRY_DELAY)
    (fst (makeRequest localStorage fetch url options n retries)).
Proof.
  revert n. induction retries as [|retries IH]; intros n.
  - simpl. destruct (attempt (fetch n)) as [[m st ed| | | |]|];
      repeat case_match; simpl; repeat constructor; auto.
  - simpl. destruct (attempt (fetch n)) as [[m st ed| | | |]|];
      repeat case_match; simpl; repeat constructor; auto;
      match goal with
      | H : makeRequest _ _ _ _ (S n) retries = _ |- _ =>
          specialize (IH (S n)); rewrite H in IH; exact IH
      end.
Qed.

Lemma makeRequest_attempts_pos (n retries : nat) :
  (1 <= attempts (fst (makeRequest localStorage fetch url options n retries)))%nat.
Proof.
  destruct retries; simpl; destruct (attempt (fetch n)) as [[m st ed| | | |]|];
    repeat case_match; simpl; lia.
Qed.

Lemma makeRequest_last_attempt (n : nat) :
  fst (makeRequest localStorage fetch url options n O) = [call].
Proof.
  simpl. destruct (attempt (fetch n)) as [[m st ed| | | |]|];
    repeat case_match; reflexivity.
Qed.

(** What [attempt] yields for each class of settled call. *)
Lemma attempt_not_ok (response : Response.t T) :
  Response.ok response = false ->
  nullFault (Responded response) = false ->
  exists message errorData,
    attempt (Responded response) =
      inl (ApiError message (Response.status response) errorData)
    /\ default [] (ErrorResponse.validationErrors errorData) =
         fieldErrors response.
Proof.
  intros Hok Hnull. simpl in Hnull. rewrite Hok in Hnull. simpl in Hnull.
  unfold attempt, handleResponse, fieldErrors. rewrite Hok. simpl.
  destruct (Response.json response) as [msg|[d|]]; [eauto|eauto|discriminate].
Qed.

Lemma attempt_undecodable (settled : FetchOutcome T) :
  undecodable settled = true ->
  exists message, attempt settled = inl (JsError "SyntaxError" message).
Proof.
  destruct settled as [response|]; [|discriminate]. simpl.
  intros H. do 3 (apply andb_true_iff in H as [H ?]).
  unfold handleResponse. rewrite H. simpl.
  destruct (Z.eqb (Response.status response) 204); [discriminate|].
  destruct (bool_decide (Response.contentLength response = Some "0"));
    [discriminate|].
  simpl. destruct (Response.json response); [eauto|discriminate].
Qed.

Lemma attempt_null_fault (settled : FetchOutcome T) :
  nullFault settled = true -> attempt settled = inl nullDereference.
Proof.
  destruct settled as [response|]; [|discriminate]. simpl.
  intros H. apply andb_true_iff in H as [Hok Hjson].
  unfold handleResponse. rewrite Hok.
  destruct (Response.json response) as [msg|[d|]];
    [discriminate|discriminate|reflexivity].
Qed.

(** The settled calls whose error is neither an [ApiError] nor an
    [AbortError]. *)
Lemma attempt_retriable (settled : FetchOutcome T) :
  networkFailure settled || undecodable settled || nullFault settled = true ->
  exists name message,
    attempt settled = inl (JsError name message) /\ name <> "AbortError".
Proof.
  intros H. apply orb_true_iff in H as [H|H];
    [apply orb_true_iff in H as [H|H]|].
  - destruct settled as [response|name message]; [discriminate|].
    simpl in H. apply negb_true_iff, bool_decide_eq_false in H.
    exists name, message. split; [reflexivity|exact H].
  - destruct (attempt_undecodable _ H) as [message Ha].
    exists "SyntaxError", message. split; [exact Ha|discriminate].
  - rewrite (attempt_null_fault _ H). eexists _, _.
    split; [reflexivity|discriminate].
Qed.


Lemma makeRequest_js_error_retry (n retries : nat) name message :
  attempt (fetch n) = inl (JsError name message) ->
  name <> "AbortError" ->
  makeRequest localStorage fetch url options n (S retries) =
    (call :: Delay API_CONFIG.RETRY_DELAY
       :: fst (makeRequest localStorage fetch url options (S n) retries),
     snd (makeRequest localStorage fetch url options (S n) retries)).
Proof.
  intros Ha Hname. simpl. rewrite Ha. simpl.
  rewrite bool_decide_eq_false_2 by congruence.
  destruct (makeRequest localStorage fetch url options (S n) retries).
  reflexivity.
Qed.


Lemma makeRequest_delays (n retries : nat) :
  Forall (fun ms => ms = API_CONFIG.RETRY_DELAY)
    (delays (fst (makeRequest localStorage fetch url options n retries))).
Proof.
  pose proof (makeRequest_events retries n) as H.
  induction H as [|ev trace Hev _ IH]; [constructor|].
  destruct Hev as [->| ->]; simpl; [exact IH|constructor; [reflexivity|exact IH]].
Qed.

Lemma makeRequest_retry_step (n retries : nat) :
  networkFailure (fetch n) || undecodable (fetch n) = true ->
  makeRequest localStorage fetch url options n (S retries) =
    (call :: Delay API_CONFIG.RETRY_DELAY
       :: fst (makeRequest localStorage fetch url options (S n) retries),
     snd (makeRequest localStorage fetch url options (S n) retries)).
Proof.
  intros Hf.
  destruct (attempt_retriable (fetch n)) as (name & message & Ha & Hname).
  { rewrite Hf. reflexivity. }
  apply (makeRequest_js_error_retry n retries name message Ha Hname).
Qed.



(** C3, amended. When the first three [fetch] calls of a request fail
    without a response (and not by the deadline), a fourth call is made:
    [RETRY_ATTEMPTS] = 3 counts the retries after the first attempt. The
    run makes exactly four calls, 1000 ms apart, and ends as the fourth
    call ends: with its value when it succeeds, with a [NetworkError] when
    it fails the same way. There is no fifth call. *)
Theorem makeRequest_attempt_budget :
  (forall k, (k < 3)%nat -> networkFailure (fetch k) = true) ->
  let run :=
    makeRequest localStorage fetch url options 0 API_CONFIG.RETRY_ATTEMPTS in
  attempts (fst run) = 4%nat
  /\ delays (fst run) = [1000; 1000; 1000]
  /\ snd run = snd (makeRequest localStorage fetch url options 3 0)
  /\ (forall result,
        attempt (fetch 3%nat) = inr result -> snd run = inr result)
  /\ (networkFailure (fetch 3%nat) = true ->
        exists message, snd run = inl (NetworkError message)).
Proof.
  intros Hfail run. subst run. unfold API_CONFIG.RETRY_ATTEMPTS.
  rewrite !makeRequest_network_failure_retry by (apply Hfail; lia).
  cbn [fst snd attempts delays].
  rewrite makeRequest_last_attempt.
  repeat split.
  - intros result Hok. rewrite (makeRequest_success 3 0 result Hok). reflexivity.
  - intros Hlast.
    destruct (makeRequest_network_failure_exhausted 3 Hlast) as [message ->].
    eauto.
Qed.

(** A response with a status of 500 or more, its body not being [null],
    ends the run at once, whatever the retries left: the [ApiError] is
    re-thrown before [shouldRetry] is asked, although [shouldRetry] answers
    [true] for it. *)
Lemma makeRequest_server_fault (n retries : nat) (response : Response.t T) :
  fetch n = Responded response ->
  serverFault (fetch n) = true ->
  nullFault (fetch n) = false ->
  exists message errorData,
    makeRequest localStorage fetch url options n retries =
      ([call], inl (ApiError message (Response.status response) errorData))
    /\ shouldRetry (ApiError message (Response.status response) errorData) = true.
Proof.
  intros E Hst Hnull. rewrite E in Hst, Hnull. simpl in Hst.
  pose proof Hst as Hge. apply Z.leb_le in Hge.
  assert (Hok : Response.ok response = false).
  { unfold Response.ok. apply andb_false_iff. right. apply Z.leb_gt. lia. }
  destruct (attempt_not_ok response Hok Hnull) as (m & ed & Ha & _).
  exists m, ed. split; [|exact Hst].
  rewrite (makeRequest_api_error n retries m _ ed) by (rewrite E; exact Ha).
  destruct (Z.eqb_spec (Response.status response) 422); [lia|reflexivity].
Qed.

(** A failure response whose body is the JSON value [null] makes
    [handleResponse] throw a [TypeError] where it reads [errorData.message];
    [makeRequest] takes it for a network failure and, whatever the status,
    tries again while retries remain. *)
Lemma makeRequest_null_fault (n retries : nat) :
  nullFault (fetch n) = true ->
  makeRequest localStorage fetch url options n (S retries) =
    (call :: Delay API_CONFIG.RETRY_DELAY
       :: fst (makeRequest localStorage fetch url options (S n) retries),
     snd (makeRequest localStorage fetch url options (S n) retries)).
Proof.
  intros Hnull.
  apply (makeRequest_js_error_retry n retries "TypeError"
           "Cannot read properties of null");
    [exact (attempt_null_fault _ Hnull)|discriminate].
Qed.

End MakeRequest.



Lemma makeRequest_attempt_budget_witness :
  attempts
    (fst (makeRequest ∅ (Scenario.recovers Scenario.aliceResponse)
            API_CONFIG.ENDPOINTS.AUTH.PROFILE RequestInit.empty 0
            API_CONFIG.RETRY_ATTEMPTS)) = 4%nat.
Proof.
  apply (makeRequest_attempt_budget ∅ (Scenario.recovers Scenario.aliceResponse)
           API_CONFIG.ENDPOINTS.AUTH.PROFILE RequestInit.empty).
  intros k Hk. unfold Scenario.recovers.
  destruct (Nat.ltb_spec k 3); [reflexivity|lia].
Defined.

(** C3 as stated fails: after three failed attempts a fourth one is made,
    and when it succeeds no fault is raised at all. *)
Lemma fourth_attempt_is_made :
  ~ (forall fetch : nat -> FetchOutcome UserResponse.t,
       (forall k, (k < 3)%nat -> networkFailure (fetch k) = true) ->
       let run :=
         makeRequest ∅ fetch API_CONFIG.ENDPOINTS.AUTH.PROFILE
           RequestInit.empty 0 API_CONFIG.RETRY_ATTEMPTS in
       attempts (fst run) = 3%nat /\ exists e, snd run = inl e).
Proof.
  intros H. specialize (H (Scenario.recovers Scenario.aliceResponse)).
  destruct H as [H _].
  - intros k Hk. unfold Scenario.recovers.
    destruct (Nat.ltb_spec k 3); [reflexivity|lia].
  - vm_compute in H. discriminate.
Qed.

Section HandleResponse.

Context {T : Type}.

(** A success response with status 204, or with a [Content-Length] header
    that is the string "0", yields [null] and its body is not read. *)
Lemma handleResponse_no_content (response : Response.t T) :
  Response.ok response = true ->
  Response.status response = 204
  \/ Response.contentLength response = Some "0" ->
  handleResponse response = (false, inr None).
Proof.
  intros Hok H. unfold handleResponse. rewrite Hok. simpl.
  destruct H as [H204|Hlen].
  - rewrite H204. reflexivity.
  - rewrite (bool_decide_eq_true_2 _ Hlen), orb_true_r. reflexivity.
Qed.

(** C9, at the failing input. A success response whose body has zero
    length, but which is not a 204 and carries no [Content-Length: 0]
    header, is not answered with [null]: [handleResponse] reads the body,
    and the decoding of the empty body fails. [makeRequest] takes that
    failure for a network failure: when the server keeps answering so, the
    request that succeeded is sent four times and a [NetworkError] is
    raised. *)
Theorem empty_body_is_resent (localStorage : Storage)
  (fetch : nat -> FetchOutcome T) (url : string) (options : RequestInit.t)
  (response : Response.t T) (message : string) :
  Response.ok response = true ->
  Response.status response <> 204 ->
  Response.contentLength response <> Some "0" ->
  String.length (Response.body response) = O ->
  Response.json response = inl message ->
  (forall k, fetch k = Responded response) ->
  let run :=
    makeRequest localStorage fetch url options 0 API_CONFIG.RETRY_ATTEMPTS in
  handleResponse response = (true, inl (JsError "SyntaxError" message))
  /\ attempts (fst run) = 4%nat
  /\ snd run =
       inl (NetworkError (js_or (Some message) "Network request failed")).
Proof.
  intros Hok H204 Hlen _ Hjson Hfetch run.
  assert (Hhandle :
    handleResponse response = (true, inl (JsError "SyntaxError" message))).
  { unfold handleResponse. rewrite Hok. simpl.
    apply Z.eqb_neq in H204. rewrite H204.
    rewrite (bool_decide_eq_false_2 _ Hlen). simpl.
    rewrite Hjson. reflexivity. }
  split; [exact Hhandle|].
  assert (Hund : forall k, undecodable (fetch k) = true).
  { intros k. rewrite Hfetch. simpl. rewrite Hok.
    apply Z.eqb_neq in H204. rewrite H204.
    rewrite (bool_decide_eq_false_2 _ Hlen), Hjson. reflexivity. }
  subst run. unfold API_CONFIG.RETRY_ATTEMPTS.
  rewrite !makeRequest_retry_step
    by (rewrite Hund; apply orb_true_r).
  cbn [fst snd attempts]. rewrite makeRequest_last_attempt.
  split; [reflexivity|].
  simpl. rewrite Hfetch. simpl. rewrite Hhandle. reflexivity.
Qed.

End HandleResponse.

Lemma empty_body_is_resent_witness :
  attempts
    (fst (makeRequest ∅ (@Scenario.silent unit)
            API_CONFIG.ENDPOINTS.AUTH.LOGOUT
            (RequestInit.mk (Some "POST") ∅ None) 0
            API_CONFIG.RETRY_ATTEMPTS)) = 4%nat.
Proof.
  apply (proj1 (proj2
    (empty_body_is_resent ∅ (@Scenario.silent unit)
       API_CONFIG.ENDPOINTS.AUTH.LOGOUT (RequestInit.mk (Some "POST") ∅ None)
       Scenario.emptyResponse "Unexpected end of JSON input"
       eq_refl ltac:(discriminate) ltac:(discriminate) eq_refl eq_refl
       (fun _ => eq_refl)))).
Defined.

Section Authorization.

Lemma getHeaders_authorization (localStorage : Storage) (token : string) :
  localStorage !! API_CONFIG.STORAGE_KEYS.TOKEN = Some token ->
  token <> "" ->
  getHeaders localStorage !! "Authorization" = Some ("Bearer " +:+ token).
Proof.
  intros Hget Hne. unfold getHeaders, getToken. rewrite Hget. simpl.
  apply String.eqb_neq in Hne. rewrite Hne. simpl.
  apply lookup_insert_eq.
Qed.

Lemma getHeaders_no_token (localStorage : Storage) :
  truthy (localStorage !! API_CONFIG.STORAGE_KEYS.TOKEN) = false ->
  getHeaders localStorage !! "Authorization" = None.
Proof.
  intros Hget. unfold getHeaders, getToken. rewrite Hget. reflexivity.
Qed.

Lemma persistSession_success JSON_stringify (localStorage localStorage' : Storage)
  response user token :
  persistSession JSON_stringify localStorage response =
    (localStorage', inr (user, token)) ->
  localStorage' !! API_CONFIG.STORAGE_KEYS.TOKEN = Some token
  /\ forall key,
       key <> API_CONFIG.STORAGE_KEYS.TOKEN ->
       key <> API_CONFIG.STORAGE_KEYS.USER ->
       localStorage' !! key = localStorage !! key.
Proof.
  unfold persistSession. destruct response as [e|[response|]];
    [| destruct (AuthResponse.user response) |];
    intros H; inversion H; subst; clear H.
  split.
  - rewrite lookup_insert_ne by discriminate. apply lookup_insert_eq.
  - intros key Htoken Huser.
    rewrite !lookup_insert_ne by congruence. reflexivity.
Qed.

Lemma login_success JSON_stringify (localStorage localStorage' : Storage)
  fetch payload trace user token :
  login JSON_stringify localStorage fetch payload =
    (trace, localStorage', inr (user, token)) ->
  localStorage' !! API_CONFIG.STORAGE_KEYS.TOKEN = Some token
  /\ forall key,
       key <> API_CONFIG.STORAGE_KEYS.TOKEN ->
       key <> API_CONFIG.STORAGE_KEYS.USER ->
       localStorage' !! key = localStorage !! key.
Proof.
  unfold login.
  destruct (makeRequest _ _ _ _ _ _) as [trace0 response].
  destruct (persistSession _ _ _) as [localStorage0 result] eqn:Hp.
  intros H. inversion H; subst; clear H.
  eapply persistSession_success, Hp.
Qed.

Lemma register_success JSON_stringify (localStorage localStorage' : Storage)
  fetch payload trace user token :
  register JSON_stringify localStorage fetch payload =
    (trace, localStorage', inr (user, token)) ->
  localStorage' !! API_CONFIG.STORAGE_KEYS.TOKEN = Some token
  /\ forall key,
       key <> API_CONFIG.STORAGE_KEYS.TOKEN ->
       key <> API_CONFIG.STORAGE_KEYS.USER ->
       localStorage' !! key = localStorage !! key.
Proof.
  unfold register.
  destruct (makeRequest _ _ _ _ _ _) as [trace0 response].
  destruct (persistSession _ _ _) as [localStorage0 result] eqn:Hp.
  intros H. inversion H; subst; clear H.
  eapply persistSession_success, Hp.
Qed.

(** The [Authorization] header a network event carries, when it is a
    [fetch]. *)
Lemma makeRequest_authorization {T} (localStorage : Storage)
  (fetch : nat -> FetchOutcome T) url options n retries token :
  localStorage !! API_CONFIG.STORAGE_KEYS.TOKEN = Some token ->
  token <> "" ->
  RequestInit.headers options !! "Authorization" = None ->
  Forall (fun ev =>
            match ev with
            | Fetch _ init =>
                RequestInit.headers init !! "Authorization" =
                  Some ("Bearer " +:+ token)
            | Delay _ => True
            end)
    (fst (makeRequest localStorage fetch url options n retries)).
Proof.
  intros Hget Hne Hopt.
  eapply Forall_impl; [apply makeRequest_events|].
  intros ev [->| ->]; [|exact I]. simpl.
  rewrite lookup_union_r by exact Hopt.
  apply getHeaders_authorization; assumption.
Qed.

(** C8, amended. After a successful login that returned a non-empty
    token, the token is stored under the transport client's token key, and
    every [fetch] of every later request carries [Authorization: Bearer
    <token>] with exactly that token, provided the caller passes no
    [Authorization] header of its own. The header is computed from the
    store at each call: once the store holds another non-empty token, that
    one is sent; when it holds none, or the empty string, no [Authorization]
    header is sent. *)
Theorem login_token_is_attached JSON_stringify
  (localStorage localStorage' : Storage) fetch payload trace user token :
  login JSON_stringify localStorage fetch payload =
    (trace, localStorage', inr (user, token)) ->
  token <> "" ->
  localStorage' !! API_CONFIG.STORAGE_KEYS.TOKEN = Some token
  /\ (forall T (fetch' : nat -> FetchOutcome T) url options n retries,
        RequestInit.headers options !! "Authorization" = None ->
        Forall (fun ev =>
                  match ev with
                  | Fetch _ init =>
                      RequestInit.headers init !! "Authorization" =
                        Some ("Bearer " +:+ token)
                  | Delay _ => True
                  end)
          (fst (makeRequest localStorage' fetch' url options n retries)))
  /\ (forall (rotated : Storage) token',
        rotated !! API_CONFIG.STORAGE_KEYS.TOKEN = Some token' ->
        token' <> "" ->
        getHeaders rotated !! "Authorization" = Some ("Bearer " +:+ token'))
  /\ (forall cleared : Storage,
        truthy (cleared !! API_CONFIG.STORAGE_KEYS.TOKEN) = false ->
        getHeaders cleared !! "Authorization" = None).
Proof.
  intros Hlogin Hne.
  destruct (login_success _ _ _ _ _ _ _ _ Hlogin) as [Hstored _].
  split; [exact Hstored|]. split.
  - intros T fetch' url options n retries Hopt.
    apply makeRequest_authorization; assumption.
  - split; [apply getHeaders_authorization|apply getHeaders_no_token].
Qed.

End Authorization.

Lemma login_token_is_attached_witness :
  <["chitchat_user" := Scenario.stringify Scenario.alice]>
    (<["chitchat_token" := "jwt-1"]> (∅ : Storage))
    !! API_CONFIG.STORAGE_KEYS.TOKEN = Some "jwt-1".
Proof.
  refine (proj1 (login_token_is_attached Scenario.stringify ∅ _
                   (Scenario.answers (AuthResponse.mk "jwt-1" (Some Scenario.aliceResponse)))
                   Scenario.credentials _ Scenario.alice "jwt-1" eq_refl _)).
  discriminate.
Defined.

(** C8 as stated fails: a login that succeeds with the empty string as
    token persists it, and the requests that follow carry no
    [Authorization] header. *)
Lemma empty_token_is_not_attached :
  ~ (forall JSON_stringify (localStorage localStorage' : Storage)
       fetch payload trace user token,
       login JSON_stringify localStorage fetch payload =
         (trace, localStorage', inr (user, token)) ->
       getHeaders localStorage' !! "Authorization" =
         Some ("Bearer " +:+ token)).
Proof.
  intros H.
  specialize (H Scenario.stringify ∅ _
                (Scenario.answers (AuthResponse.mk "" (Some Scenario.aliceResponse)))
                Scenario.credentials _ Scenario.alice "" eq_refl).
  vm_compute in H. discriminate.
Qed.

End TransportFacts.

(** * Properties of the error classifier *)

Module ClassifierFacts.
Import ErrorHandler.

Lemma retryKey_present (c : Ascii.ascii) (context : string) :
  retryKey (Some (String c context)) = String c context.
Proof. reflexivity. Qed.

Lemma retryKey_absent : retryKey None = "default".
Proof. reflexivity. Qed.

Lemma retryKey_contextKey (context : option string) :
  retryKey context = DispatchTable.contextKey context.
Proof. destruct context as [[|c rest]|]; reflexivity. Qed.

Lemma run_retry_or_reload (context : option string)
  (retryCallbacks : gmap string string) :
  run_action (RetryOrReload context) retryCallbacks
  = match retryCallbacks !! DispatchTable.contextKey context with
    | Some registered => CallRetryCallback registered
    | None => LocationReload
    end.
Proof. simpl. rewrite retryKey_contextKey. reflexivity. Qed.

Lemma run_retry_only (context : option string)
  (retryCallbacks : gmap string string) :
  run_action (RetryOnly context) retryCallbacks
  = match retryCallbacks !! DispatchTable.contextKey context with
    | Some registered => CallRetryCallback registered
    | None => NoEffect
    end.
Proof. simpl. rewrite retryKey_contextKey. reflexivity. Qed.

(** The classifier gives every [Exn] the amended row of the table. *)
Lemma handleError_matches_amended (e : Exn) (context : option string)
  (retryCallbacks : gmap string string) :
  DispatchTable.matchesRow (handleError e context) retryCallbacks
    (DispatchTable.amendedRowOf (Carrying e))
    (retryCallbacks !! DispatchTable.contextKey context).
Proof.
  unfold DispatchTable.matchesRow, actionEffects.
  destruct e as [message status errorData| | | |]; try reflexivity.
  - cbn [handleError DispatchTable.amendedRowOf].
    unfold handleApiError, DispatchTable.statusRow.
    destruct (Z.eqb_spec status 400) as [->|_].
    { unfold handleBadRequestError.
      destruct (ErrorResponse.validationErrors errorData); reflexivity. }
    repeat match goal with
           | |- context [Z.eqb status ?k] =>
               destruct (Z.eqb_spec status k) as [->|_];
                 [cbn; rewrite <- ?retryKey_contextKey; reflexivity|]
           end.
    reflexivity.
  - cbn. rewrite <- retryKey_contextKey. reflexivity.
Qed.

(** An [ApiError] built without [errorData], as [uploadFile] builds it:
    for a status [handleApiError] has a case for, the classifier throws a
    [TypeError] and no notification is produced; for any other status the
    notification is the one of the row "unknown". *)
Lemma handleThrown_without_error_data (message : string) (status : Z)
  (context : option string) (retryCallbacks : gmap string string) :
  (listedStatus status = true ->
   handleThrown (ApiErrorWithoutData message status) context
   = inl (JsError "TypeError" "Cannot read properties of undefined"))
  /\ (listedStatus status = false ->
      exists notification,
        handleThrown (ApiErrorWithoutData message status) context
        = inr notification
        /\ DispatchTable.matchesRow notification retryCallbacks
             DispatchTable.Unknown None).
Proof.
  unfold handleThrown. split; intros ->; [reflexivity|].
  eexists. split; reflexivity.
Qed.

Lemma upload_fault_is_not_classified :
  handleThrown (ApiErrorWithoutData "File upload failed" 413) (Some "uploadFile")
  = inl (JsError "TypeError" "Cannot read properties of undefined").
Proof. reflexivity. Qed.

(** C6, amended. For every fault that carries its error data, and every
    context, the classifier produces a notification that matches a row of
    the dispatch table: it has the severity and the auto-dismiss time of the
    row, and its actions do what the recovery action of the row says. The
    row is the row of the fault's status, where every 422, and every 400
    whose body has a [validationErrors] record, empty or not, has the row
    "400 / 422 with field errors"; the retry callback of the context is the
    one registered under the context string, and under ["default"] when the
    context is absent or empty. In particular a 500 gives an error
    notification dismissed after 5000 ms whose action calls that retry
    callback and reloads the page when there is none, and a 502, 503 or 504
    gives an error notification dismissed after 8000 ms whose action calls
    that retry callback and does nothing when there is none. The message of
    a fault with field errors lists every field with its error. The amended
    row is the row of the document except for a 422 without field errors and
    a 400 with an empty record, and the amended key is the context but for
    an absent or empty one. *)
Theorem handleError_dispatch :
  (forall (thrown : Thrown) (context : option string)
          (retryCallbacks : gmap string string),
     carriesErrorData thrown = true ->
     exists notification,
       handleThrown thrown context = inr notification
       /\ DispatchTable.matchesRow notification retryCallbacks
            (DispatchTable.amendedRowOf thrown)
            (retryCallbacks !! DispatchTable.contextKey context))
  /\ (forall (message : string) (errorData : ErrorResponse.t)
             (context : option string) (retryCallbacks : gmap string string),
        let effect fallback :=
          [match retryCallbacks !! DispatchTable.contextKey context with
           | Some callback => CallRetryCallback callback
           | None => fallback
           end] in
        let row status :=
          sum_map id
            (fun notification =>
               (ErrorNotification.type notification,
                ErrorNotification.duration notification,
                actionEffects notification retryCallbacks))
            (handleThrown (Carrying (ApiError message status errorData))
               context) in
        row 500 = inr (error, Some 5000, effect LocationReload)
        /\ row 502 = inr (error, Some 8000, effect NoEffect)
        /\ row 503 = inr (error, Some 8000, effect NoEffect)
        /\ row 504 = inr (error, Some 8000, effect NoEffect))
  /\ (forall (message : string) (body userMessage : option string)
             (errs : list (string * string)) (context : option string),
        let listed :=
          String.concat ", " (map (fun fm => fst fm +:+ ": " +:+ snd fm) errs) in
        let errorData := ErrorResponse.mk body (Some errs) userMessage in
        let shown thrown :=
          sum_map id ErrorNotification.message (handleThrown thrown context) in
        shown (Carrying (ApiError message 400 errorData))
        = inr (js_or userMessage (js_or body "Invalid request")
               +:+ ". " +:+ listed)
        /\ shown (Carrying (ApiError message 422 errorData))
           = inr ("Please fix the following errors: " +:+ listed)
        /\ shown (Carrying (ValidationError errs))
           = inr ("Please fix the following errors: " +:+ listed))
  /\ (forall (message : string) (status : Z) (errorData : ErrorResponse.t),
        let thrown := Carrying (ApiError message status errorData) in
        DispatchTable.amendedRowOf thrown <> DispatchTable.rowOf thrown ->
        DispatchTable.withFieldErrors errorData = false
        /\ (status = 422
            \/ (status = 400
                /\ ErrorResponse.validationErrors errorData = Some [])))
  /\ (forall (e : Exn),
        match e with
        | ApiError _ _ _ => True
        | _ =>
            DispatchTable.amendedRowOf (Carrying e)
            = DispatchTable.rowOf (Carrying e)
        end)
  /\ (forall (c : Ascii.ascii) (rest : string)
             (retryCallbacks : gmap string string),
        retryCallbacks !! DispatchTable.contextKey (Some (String c rest))
        = DispatchTable.registeredFor (Some (String c rest)) retryCallbacks).
Proof.
  split.
  { intros [e|message status] context retryCallbacks Hdata; [|discriminate].
    eexists. split; [reflexivity|]. apply handleError_matches_amended. }
  split.
  { intros message errorData context retryCallbacks effect row.
    subst effect row. cbn. rewrite !retryKey_contextKey. repeat split. }
  split; [intros; repeat split|].
  split.
  { intros message status errorData thrown Hrows. subst thrown.
    cbn [DispatchTable.amendedRowOf DispatchTable.rowOf] in Hrows.
    unfold DispatchTable.withFieldErrors in *.
    unfold DispatchTable.statusRow in Hrows.
    destruct (Z.eqb_spec status 400) as [->|H400].
    - cbn in Hrows.
      destruct (ErrorResponse.validationErrors errorData) as [[|fe errs]|];
        try (exfalso; apply Hrows; reflexivity).
      split; [reflexivity|]. right. split; reflexivity.
    - destruct (Z.eqb_spec status 422) as [->|H422].
      + cbn in Hrows.
        destruct (ErrorResponse.validationErrors errorData) as [[|fe errs]|];
          try (exfalso; apply Hrows; reflexivity);
          (split; [reflexivity|left; reflexivity]).
      + exfalso. apply Hrows. reflexivity. }
  split; [intros [| | | |]; reflexivity || exact I|].
  intros c rest retryCallbacks. reflexivity.
Qed.

Lemma handleError_dispatch_witness :
  exists notification,
    handleThrown
      (Carrying (ApiError "Internal Server Error" 500 Scenario.noFault))
      (Some "sendMessage") = inr notification
    /\ DispatchTable.matchesRow notification
         (registerRetryCallback "sendMessage" "resend" ∅)
         DispatchTable.Status500
         (registerRetryCallback "sendMessage" "resend" ∅ !! "sendMessage").
Proof.
  apply (proj1 handleError_dispatch
           (Carrying (ApiError "Internal Server Error" 500 Scenario.noFault))
           (Some "sendMessage")
           (registerRetryCallback "sendMessage" "resend" ∅) eq_refl).
Defined.

(** C6 as stated fails at three inputs. A 400 whose [validationErrors]
    record is empty, and a 422 without a [validationErrors] record, carry no
    field errors and are dismissed after 8000 ms, where their rows of the
    table say 5000 ms. The Retry action of a 500 handled in the context [""],
    with a retry callback registered under [""], reloads the page, where the
    table says it calls the callback registered for the context. *)
Lemma dispatch_table_is_not_followed :
  let emptyRecord :=
    Carrying (ApiError "Bad Request" 400
                (ErrorResponse.mk (Some "Bad Request") (Some []) None)) in
  let unprocessable :=
    Carrying (ApiError "Unprocessable Entity" 422
                (ErrorResponse.mk (Some "Unprocessable Entity") None None)) in
  let serverError :=
    Carrying (ApiError "Internal Server Error" 500 Scenario.noFault) in
  let registry := registerRetryCallback "" "reconnect" ∅ in
  (exists notification,
     handleThrown emptyRecord (Some "sendMessage") = inr notification
     /\ ErrorNotification.duration notification = Some 8000
     /\ DispatchTable.entry (DispatchTable.rowOf emptyRecord)
        = (error, 5000, NoRecovery)
     /\ ~ DispatchTable.matchesRow notification ∅
           (DispatchTable.rowOf emptyRecord)
           (DispatchTable.registeredFor (Some "sendMessage") ∅))
  /\ (exists notification,
        handleThrown unprocessable (Some "sendMessage") = inr notification
        /\ ErrorNotification.duration notification = Some 8000
        /\ DispatchTable.entry (DispatchTable.rowOf unprocessable)
           = (error, 5000, NoRecovery)
        /\ ~ DispatchTable.matchesRow notification ∅
              (DispatchTable.rowOf unprocessable)
              (DispatchTable.registeredFor (Some "sendMessage") ∅))
  /\ (exists notification,
        handleThrown serverError (Some "") = inr notification
        /\ actionEffects notification registry = [LocationReload]
        /\ DispatchTable.recoveryEffects
             (snd (DispatchTable.entry (DispatchTable.rowOf serverError)))
             (DispatchTable.registeredFor (Some "") registry)
           = [CallRetryCallback "reconnect"]
        /\ ~ DispatchTable.matchesRow notification registry
              (DispatchTable.rowOf serverError)
              (DispatchTable.registeredFor (Some "") registry)).
Proof.
  repeat split; eexists; (split; [reflexivity|]);
    (split; [reflexivity|]); (split; [reflexivity|]);
    unfold DispatchTable.matchesRow; discriminate.
Qed.

End ClassifierFacts.

(** * Properties of the session provider *)

Module SessionFacts.
Import AuthProvider.

(** [checkAuthStatus] looks the token up under the key ["token"]; when
    nothing is stored there it issues no request and leaves the store as it
    is. *)
Lemma checkAuthStatus_no_token (st : AuthState.t) (localStorage : Storage)
  fetchProfile fetchLogout :
  truthy (localStorage !! "token") = false ->
  checkAuthStatus st localStorage fetchProfile fetchLogout =
    AuthRun.mk
      (AuthState.mk (AuthState.user st) false false (AuthState.token st))
      localStorage [] [].
Proof. intros H. unfold checkAuthStatus. rewrite H. reflexivity. Qed.

(** C7, at the failing input. The token that a successful [login] persists
    (the same holds for [register]) is stored under ["chitchat_token"]; on
    the next start [checkAuthStatus] reads the key ["token"], so unless some
    other code has written that key it finds no token: no profile request is
    made and the session is not authenticated, although the token is still
    in the store. *)
Theorem checkAuthStatus_misses_persisted_token JSON_stringify
  (localStorage localStorage' : Storage) fetch payload trace user token
  (st : AuthState.t) fetchProfile fetchLogout :
  ApiService.login JSON_stringify localStorage fetch payload =
    (trace, localStorage', inr (user, token)) ->
  localStorage !! "token" = None ->
  let run := checkAuthStatus st localStorage' fetchProfile fetchLogout in
  AuthRun.localStorage run !! API_CONFIG.STORAGE_KEYS.TOKEN = Some token
  /\ AuthRun.trace run = []
  /\ AuthRun.notifications run = []
  /\ AuthState.isAuthenticated (AuthRun.state run) = false
  /\ AuthState.user (AuthRun.state run) = AuthState.user st.
Proof.
  intros Hlogin Hnone run.
  destruct (TransportFacts.login_success _ _ _ _ _ _ _ _ Hlogin)
    as [Hstored Hother].
  assert (Hkey : localStorage' !! "token" = None).
  { rewrite Hother by discriminate. exact Hnone. }
  subst run. rewrite checkAuthStatus_no_token by (rewrite Hkey; reflexivity).
  simpl. auto.
Qed.

Lemma checkAuthStatus_misses_persisted_token_witness :
  AuthState.isAuthenticated
    (AuthRun.state
       (checkAuthStatus AuthState.initial
          (<["chitchat_user" := Scenario.stringify Scenario.alice]>
             (<["chitchat_token" := "jwt-1"]> (∅ : Storage)))
          (Scenario.answers Scenario.aliceResponse)
          (Scenario.answers tt))) = false.
Proof.
  refine (proj1 (proj2 (proj2 (proj2
    (checkAuthStatus_misses_persisted_token Scenario.stringify ∅ _
       (Scenario.answers (AuthResponse.mk "jwt-1" (Some Scenario.aliceResponse)))
       Scenario.credentials _ Scenario.alice "jwt-1" AuthState.initial
       (Scenario.answers Scenario.aliceResponse) (Scenario.answers tt)
       eq_refl eq_refl))))).
Defined.

(** The same for [register]. *)
Lemma checkAuthStatus_misses_registered_token JSON_stringify
  (localStorage localStorage' : Storage) fetch payload trace user token
  (st : AuthState.t) fetchProfile fetchLogout :
  ApiService.register JSON_stringify localStorage fetch payload =
    (trace, localStorage', inr (user, token)) ->
  localStorage !! "token" = None ->
  checkAuthStatus st localStorage' fetchProfile fetchLogout =
    AuthRun.mk
      (AuthState.mk (AuthState.user st) false false (AuthState.token st))
      localStorage' [] [].
Proof.
  intros Hregister Hnone.
  destruct (TransportFacts.register_success _ _ _ _ _ _ _ _ Hregister)
    as [_ Hother].
  apply checkAuthStatus_no_token.
  rewrite Hother by discriminate. rewrite Hnone. reflexivity.
Qed.

(** When a token is stored under ["token"] and the profile request
    succeeds, the session becomes authenticated with that token. *)
Lemma checkAuthStatus_success (st : AuthState.t) (localStorage : Storage)
  fetchProfile fetchLogout trace userProfile :
  truthy (localStorage !! "token") = true ->
  ApiService.getProfile localStorage fetchProfile = (trace, inr userProfile) ->
  checkAuthStatus st localStorage fetchProfile fetchLogout =
    AuthRun.mk
      (AuthState.mk (Some userProfile) false true (localStorage !! "token"))
      localStorage trace [].
Proof.
  intros Htoken Hprofile. unfold checkAuthStatus.
  rewrite Htoken, Hprofile. reflexivity.
Qed.

(** When the profile request fails, exactly one notification is shown and
    the keys of the transport client are removed, but the key ["token"]
    that [checkAuthStatus] reads is left in the store. *)
Lemma checkAuthStatus_failure (st : AuthState.t) (localStorage : Storage)
  fetchProfile fetchLogout trace e :
  truthy (localStorage !! "token") = true ->
  ApiService.getProfile localStorage fetchProfile = (trace, inl e) ->
  let run := checkAuthStatus st localStorage fetchProfile fetchLogout in
  AuthRun.state run = AuthState.mk None false false None
  /\ AuthRun.notifications run =
       [ErrorHandler.handleError e (Some "checkAuthStatus")]
  /\ AuthRun.localStorage run !! API_CONFIG.STORAGE_KEYS.TOKEN = None
  /\ AuthRun.localStorage run !! API_CONFIG.STORAGE_KEYS.USER = None
  /\ AuthRun.localStorage run !! "token" = localStorage !! "token".
Proof.
  intros Htoken Hprofile run. subst run. unfold checkAuthStatus.
  rewrite Htoken, Hprofile. unfold ApiService.logout.
  destruct (ApiService.makeRequest _ _ _ _ _ _) as [trace' result].
  simpl. repeat split.
  - rewrite lookup_delete_ne by discriminate. apply lookup_delete_eq.
  - apply lookup_delete_eq.
  - rewrite !lookup_delete_ne by discriminate. reflexivity.
Qed.

End SessionFacts.

(** * Properties of the chat state provider *)

Module ChatFacts.
Import ChatProvider.

Lemma with_messages_same (chat : Chat.t) :
  Chat.with_messages chat (Chat.messages chat) = chat.
Proof. destruct chat. reflexivity. Qed.

Lemma filter_drops_appended (id : string) (ms : list Message.t) (m : Message.t) :
  Message.id m = id ->
  Forall (fun m' => Message.id m' <> id) ms ->
  filter (fun m' => Message.id m' <> id) (ms ++ [m])%list = ms.
Proof.
  intros Hid Hfresh. induction Hfresh as [|m' ms Hm' _ IH]; simpl.
  - rewrite filter_cons_False by (intros H; apply H, Hid). reflexivity.
  - rewrite filter_cons_True by exact Hm'. rewrite IH. reflexivity.
Qed.

Lemma removeFromRoom_appendToRoom (roomId : string) (m : Message.t)
  (chats : list Chat.t) :
  freshIn roomId (Message.id m) chats ->
  removeFromRoom roomId (Message.id m) (appendToRoom roomId m chats) = chats.
Proof.
  intros Hfresh. induction Hfresh as [|chat chats Hchat _ IH]; simpl;
    [reflexivity|].
  rewrite IH. f_equal.
  destruct (decide (Chat.id chat = roomId)) as [Heq|Hne]; simpl.
  - rewrite decide_True by exact Heq. simpl.
    rewrite filter_drops_appended by auto.
    destruct chat; reflexivity.
  - rewrite decide_False by exact Hne. reflexivity.
Qed.

Lemma appendToRoom_lookup (roomId : string) (m : Message.t)
  (chats : list Chat.t) (i : nat) (chat : Chat.t) :
  chats !! i = Some chat ->
  exists chat',
    appendToRoom roomId m chats !! i = Some chat'
    /\ Chat.id chat' = Chat.id chat
    /\ Chat.messages chat' =
         if decide (Chat.id chat = roomId)
         then (Chat.messages chat ++ [m])%list
         else Chat.messages chat.
Proof.
  intros Hi. unfold appendToRoom. rewrite list_lookup_fmap, Hi. simpl.
  eexists. split; [reflexivity|].
  destruct (decide (Chat.id chat = roomId)); split; reflexivity.
Qed.

Lemma isActive_true (active : Chat.t) (roomId : string) :
  Chat.id active = roomId -> isActive (Some active) roomId = true.
Proof. intros H. simpl. apply bool_decide_eq_true_2, H. Qed.


(** C10. A [sendMessage] call made while there is no current user returns
    at once: nothing is appended, the rooms and the active mirror are as
    they were, no request is issued and nothing is shown. *)
Theorem sendMessage_without_user (r : Render.t) (localStorage : Storage)
  (fetch : nat -> FetchOutcome MessageResponse.t) (roomId content : string)
  (messageType : MessageType) (now date : Z) (s : Store.t) :
  Render.currentUser r = None ->
  sendMessage_pending r roomId content messageType now date s = None
  /\ sendMessage r localStorage fetch roomId content messageType now date s =
       SendRun.mk s [] [].
Proof.
  intros Huser. unfold sendMessage, sendMessage_pending. rewrite Huser.
  split; reflexivity.
Qed.

Lemma sendMessage_without_user_witness :
  sendMessage
    (render AuthState.initial (Store.mk [Scenario.room1] (Some Scenario.room1) false false None))
    ∅ (Scenario.answers Scenario.echo) "r1" "hi" text 1000 1000
    (Store.mk [Scenario.room1] (Some Scenario.room1) false false None)
  = SendRun.mk (Store.mk [Scenario.room1] (Some Scenario.room1) false false None) [] [].
Proof.
  apply (proj2 (sendMessage_without_user
                  (render AuthState.initial
                     (Store.mk [Scenario.room1] (Some Scenario.room1) false false None))
                  ∅ (Scenario.answers Scenario.echo) "r1" "hi" text 1000 1000
                  (Store.mk [Scenario.room1] (Some Scenario.room1) false false None)
                  eq_refl)).
Defined.

(** C1, at the failing input. When the persist request of a [sendMessage]
    for the active room fails, the [catch] block takes the provisional
    message out of the room's list in [chats], which is then as before the
    call (the provisional id being fresh), but it does not touch
    [activeChat]: the active mirror still ends with the provisional
    message, so its list of ids differs from the one before the call. One
    notification, for the context ["sendMessage"], is shown. *)
Theorem sendMessage_failure_keeps_provisional_in_mirror (auth : AuthState.t)
  (s : Store.t) (localStorage : Storage)
  (fetch : nat -> FetchOutcome MessageResponse.t) (roomId content : string)
  (messageType : MessageType) (now date : Z) (currentUser : User.t)
  (active : Chat.t) (trace : list NetEvent) (e : Exn) :
  AuthState.user auth = Some currentUser ->
  Store.activeChat s = Some active ->
  Chat.id active = roomId ->
  ApiService.sendMessage localStorage fetch roomId
    (SendMessagePayload.mk content messageType) = (trace, inl e) ->
  freshIn roomId ("temp-" +:+ pretty now) (Store.chats s) ->
  let m := optimisticMessage currentUser roomId content messageType now date in
  let run :=
    sendMessage (render auth s) localStorage fetch roomId content messageType
      now date s in
  Store.chats (SendRun.store run) = Store.chats s
  /\ Store.activeChat (SendRun.store run) =
       Some (Chat.with_messages active (Chat.messages active ++ [m]))
  /\ map Message.id (Chat.messages active ++ [m])
       <> map Message.id (Chat.messages active)
  /\ SendRun.notifications run =
       [ErrorHandler.handleError e (Some "sendMessage")].
Proof.
  intros Huser Hactive Hid Hfail Hfresh m run. subst run.
  unfold sendMessage, sendMessage_pending. simpl. rewrite Huser, Hfail.
  fold m. unfold applyOptimistic. simpl. rewrite Hactive.
  rewrite (isActive_true active roomId Hid). simpl.
  split; [apply (removeFromRoom_appendToRoom roomId m), Hfresh|].
  split; [rewrite Hactive; reflexivity|]. split; [|reflexivity].
  intros Heq. apply (f_equal length) in Heq.
  rewrite !length_map, length_app in Heq. simpl in Heq. lia.
Qed.

Lemma sendMessage_failure_keeps_provisional_in_mirror_witness :
  Store.activeChat
    (SendRun.store
       (sendMessage
          (render Scenario.session
             (Store.mk [Scenario.room1] (Some Scenario.room1) false false None))
          ∅ Scenario.offline "r1" "hi" text 1000 1000
          (Store.mk [Scenario.room1] (Some Scenario.room1) false false None)))
  = Some (Chat.with_messages Scenario.room1
            [optimisticMessage Scenario.alice "r1" "hi" text 1000 1000]).
Proof.
  refine (proj1 (proj2
    (sendMessage_failure_keeps_provisional_in_mirror Scenario.session
       (Store.mk [Scenario.room1] (Some Scenario.room1) false false None)
       ∅ Scenario.offline "r1" "hi" text 1000 1000 Scenario.alice
       Scenario.room1 _ _ eq_refl eq_refl eq_refl eq_refl _))).
  repeat constructor.
Defined.

(** Two provisional messages made at the same clock reading have the same
    id, and the rollback of one removes both: here the room already holds
    the provisional message of an earlier send of the same millisecond, and
    after the failed send its list is empty. *)
Lemma rollback_removes_same_id :
  let earlier := optimisticMessage Scenario.alice "r1" "first" text 1000 1000 in
  let s :=
    Store.mk [Chat.with_messages Scenario.room1 [earlier]] None false false None in
  let run :=
    sendMessage (render Scenario.session s) ∅ Scenario.offline "r1" "second"
      text 1000 1000 s in
  map Chat.messages (Store.chats s) = [[earlier]]
  /\ map Chat.messages (Store.chats (SendRun.store run)) = [[]].
Proof. split; reflexivity. Qed.

(** A pushed message is appended to its room under the id the server
    gave it, whatever that id looks like. *)
Lemma handleWebSocketMessage_appends (r : Render.t)
  (wsMessage : WebSocketMessage.t) (s : Store.t) (i : nat) (chat : Chat.t) :
  WebSocketMessage.type wsMessage = NEW_MESSAGE ->
  Store.chats s !! i = Some chat ->
  Chat.id chat = WebSocketMessage.roomId wsMessage ->
  exists chat',
    Store.chats (handleWebSocketMessage r wsMessage s) !! i = Some chat'
    /\ Chat.messages chat' =
         (Chat.messages chat
            ++ [ApiService.mapWebSocketMessageToMessage wsMessage])%list
    /\ Message.id (ApiService.mapWebSocketMessageToMessage wsMessage)
       = WebSocketMessage.id wsMessage.
Proof.
  intros Htype Hi Hroom. unfold handleWebSocketMessage. rewrite Htype.
  assert (Hchats :
    forall s1 : Store.t,
      Store.chats
        (if isActive (Render.activeChat r)
              (Message.roomId (ApiService.mapWebSocketMessageToMessage wsMessage))
         then Store.setActiveChat
                (fmap (fun prev =>
                         Chat.with_messages_last prev
                           (Chat.messages prev
                              ++ [ApiService.mapWebSocketMessageToMessage wsMessage])
                           (ApiService.mapWebSocketMessageToMessage wsMessage)))
                s1
         else s1) = Store.chats s1).
  { intros s1. destruct (isActive _ _); reflexivity. }
  rewrite Hchats. simpl. rewrite list_lookup_fmap, Hi. simpl.
  rewrite decide_True by exact Hroom.
  eexists. repeat split.
Qed.





(** Subscribing to the rooms of a list one after the other, on a connected
    client. *)
Lemma subscribe_rooms (chats : list Chat.t) (s : Store.t) (c : Client.t) :
  Store.stompClientRef s = Some c ->
  Client.connected c = true ->
  foldl (fun acc chat => subscribeToRoom (Chat.id chat) acc) s chats
  = Store.setStompClient
      (Some (Client.mk true
               (Client.subscriptions c
                  ++ map (fun chat => roomDestination (Chat.id chat)) chats)
               (Client.connectHeaders c) (Client.reconnectDelay c)
               (Client.render c))) s.
Proof.
  revert s c. induction chats as [|chat chats IH]; intros s c Href Hconn; simpl.
  - rewrite app_nil_r. destruct s, c. simpl in *. subst. reflexivity.
  - assert (Hstep :
      subscribeToRoom (Chat.id chat) s =
        Store.setStompClient
          (Some (subscribe (roomDestination (Chat.id chat)) c)) s).
    { unfold subscribeToRoom. rewrite Href, Hconn. reflexivity. }
    rewrite Hstep.
    rewrite (IH _ (subscribe (roomDestination (Chat.id chat)) c));
      [|reflexivity|exact Hconn].
    simpl. rewrite <- app_assoc. reflexivity.
Qed.

(** On every connect, the destinations subscribed to are added to those
    the client holds: the inbox of the user and the rooms of the render
    that built the client. *)
Lemma onConnect_store (s : Store.t) (c : Client.t) (currentUser : User.t) :
  Store.stompClientRef s = Some c ->
  Render.currentUser (Client.render c) = Some currentUser ->
  onConnect s
  = Store.mk (Store.chats s) (Store.activeChat s) (Store.isLoading s) true
      (Some (Client.mk true
               (Client.subscriptions c
                  ++ inboxDestination (User.id currentUser)
                     :: map (fun chat => roomDestination (Chat.id chat))
                          (Render.chats (Client.render c)))
               (Client.connectHeaders c) (Client.reconnectDelay c)
               (Client.render c))).
Proof.
  intros Href Huser. unfold onConnect. rewrite Href, Huser.
  erewrite subscribe_rooms; [|reflexivity|reflexivity].
  simpl. rewrite <- app_assoc. reflexivity.
Qed.

(** C5, at the failing input. [connectWebSocket] builds the client from
    the render in which the session became authenticated, and the
    [onConnect] closure keeps that render's [chats]. When the rooms are
    loaded after that, a connect, and every reconnect after a close,
    subscribes to the inbox and to the rooms of that render only: the rooms
    loaded since are known to the store and are not subscribed to. *)
Theorem onConnect_subscribes_rooms_of_render (auth : AuthState.t)
  (s : Store.t) (loadedChats : list Chat.t) (currentUser : User.t) :
  truthy (AuthState.token auth) = true ->
  AuthState.isAuthenticated auth = true ->
  AuthState.user auth = Some currentUser ->
  Store.stompClientRef s = None ->
  let r := render auth s in
  let connected := onConnect (loadChats_resolved r loadedChats (connectWebSocket r s)) in
  let reconnected := onConnect (onWebSocketClose connected) in
  let expected :=
    inboxDestination (User.id currentUser)
      :: map (fun chat => roomDestination (Chat.id chat)) (Store.chats s) in
  Store.chats connected = loadedChats
  /\ subscribed connected = expected
  /\ Store.chats reconnected = loadedChats
  /\ subscribed reconnected = expected.
Proof.
  intros Htoken Hauth Huser Href r connected reconnected expected.
  assert (Hconnect :
    connectWebSocket r s =
      Store.setStompClient
        (Some (Client.mk false []
                 ("Bearer " +:+ default "" (Render.token r)) 5000 r)) s).
  { unfold connectWebSocket. simpl. rewrite Htoken, Hauth, Href. reflexivity. }
  assert (Hloaded :
    exists s2,
      loadChats_resolved r loadedChats (connectWebSocket r s) = s2
      /\ Store.chats s2 = loadedChats
      /\ Store.stompClientRef s2 =
           Some (Client.mk false []
                   ("Bearer " +:+ default "" (Render.token r)) 5000 r)).
  { eexists. split; [reflexivity|]. rewrite Hconnect.
    unfold loadChats_resolved.
    destruct loadedChats, (Render.activeChat r); split; reflexivity. }
  destruct Hloaded as (s2 & Hs2 & Hchats2 & Href2).
  subst connected reconnected. rewrite Hs2.
  rewrite (onConnect_store s2 _ currentUser Href2 Huser). simpl.
  split; [exact Hchats2|]. split; [reflexivity|].
  erewrite onConnect_store; [|reflexivity|exact Huser].
  simpl. split; [exact Hchats2|reflexivity].
Qed.

Lemma onConnect_subscribes_rooms_of_render_witness :
  let connected :=
    onConnect
      (loadChats_resolved (render Scenario.session Store.initial)
         [Scenario.room1]
         (connectWebSocket (render Scenario.session Store.initial)
            Store.initial)) in
  Store.chats connected = [Scenario.room1]
  /\ subscribed connected = ["/user/u1/queue/messages"].
Proof.
  intros connected.
  destruct (onConnect_subscribes_rooms_of_render Scenario.session
              Store.initial [Scenario.room1] Scenario.alice
              eq_refl eq_refl eq_refl eq_refl)
    as (Hchats & Hsub & _).
  split; [exact Hchats|exact Hsub].
Defined.

End ChatFacts.

(** * Properties of the configuration *)

Module ConfigFacts.
Import Config.

Lemma stripTrailingSlash_app_slash (base : string) :
  stripTrailingSlash (base +:+ "/") = base.
Proof.
  induction base as [|c base IH]; [reflexivity|].
  change (String c base +:+ "/") with (String c (base +:+ "/")).
  cbn [stripTrailingSlash]. rewrite IH.
  assert (H : String.eqb (String c (base +:+ "/")) "/" = false).
  { apply String.eqb_neq. destruct base; discriminate. }
  rewrite H. reflexivity.
Qed.

Lemma cleanEndpoint_slash (endpoint : string) :
  startsWithSlash endpoint = false ->
  cleanEndpoint ("/" +:+ endpoint) = cleanEndpoint endpoint.
Proof.
  intros H. unfold cleanEndpoint. rewrite H.
  destruct endpoint; reflexivity.
Qed.

(** X1. With a base URL configured, [getApiUrl] is the base without its
    final slash, then [/api], then the endpoint with a leading slash:
    writing the endpoint with or without its leading slash gives the same
    URL, and so does configuring the production base with or without one
    final slash. *)
Theorem getApiUrl_slashes (env : ProcessEnv.t) (base endpoint : string) :
  ProcessEnv.NODE_ENV env = Some "production" ->
  ProcessEnv.NEXT_PUBLIC_BACKEND_URL env = Some base ->
  base <> "" ->
  stripTrailingSlash base = base ->
  startsWithSlash endpoint = false ->
  let slashed :=
    ProcessEnv.mk (ProcessEnv.NODE_ENV env) (Some (base +:+ "/"))
      (ProcessEnv.NEXT_PUBLIC_WEBSOCKET_URL env) in
  getApiUrl env endpoint = base +:+ "/api/" +:+ endpoint
  /\ getApiUrl env ("/" +:+ endpoint) = getApiUrl env endpoint
  /\ getApiUrl slashed endpoint = getApiUrl env endpoint.
Proof.
  intros Hnode Hurl Hne Hstrip Hslash slashed.
  assert (Hbase : BASE_URL env = base).
  { unfold BASE_URL, getCurrentEnvironment. rewrite Hnode. simpl.
    rewrite Hurl. simpl. apply String.eqb_neq in Hne. rewrite Hne. reflexivity. }
  assert (Hbase' : BASE_URL slashed = base +:+ "/").
  { unfold BASE_URL, getCurrentEnvironment, slashed. simpl. rewrite Hnode. simpl.
    destruct base; reflexivity. }
  assert (Hfirst : getApiUrl env endpoint = base +:+ "/api/" +:+ endpoint).
  { unfold getApiUrl. rewrite Hbase. apply String.eqb_neq in Hne. rewrite Hne.
    rewrite Hstrip. unfold cleanEndpoint. rewrite Hslash. reflexivity. }
  split; [exact Hfirst|]. split.
  - unfold getApiUrl. rewrite Hbase. apply String.eqb_neq in Hne. rewrite Hne.
    rewrite cleanEndpoint_slash by exact Hslash. reflexivity.
  - rewrite Hfirst. unfold getApiUrl. rewrite Hbase'.
    destruct (String.eqb_spec (base +:+ "/") "") as [Hempty|_].
    { destruct base; discriminate. }
    rewrite stripTrailingSlash_app_slash. unfold cleanEndpoint.
    rewrite Hslash. reflexivity.
Qed.

Lemma getApiUrl_slashes_witness :
  getApiUrl
    (ProcessEnv.mk (Some "production") (Some "https://chat.example.com") None)
    "auth/login"
  = "https://chat.example.com/api/auth/login".
Proof.
  apply (proj1 (getApiUrl_slashes
                  (ProcessEnv.mk (Some "production")
                     (Some "https://chat.example.com") None)
                  "https://chat.example.com" "auth/login"
                  eq_refl eq_refl ltac:(discriminate) eq_refl eq_refl)).
Defined.

(** X2. In a production build whose backend URL is unset or empty,
    [getApiUrl] returns the endpoint as it was given, with neither a host
    nor the [/api] prefix, and the configuration is reported invalid. *)
Theorem getApiUrl_unconfigured (env : ProcessEnv.t) (endpoint : string) :
  ProcessEnv.NODE_ENV env = Some "production" ->
  truthy (ProcessEnv.NEXT_PUBLIC_BACKEND_URL env) = false ->
  getApiUrl env endpoint = endpoint /\ isApiConfigValid env = false.
Proof.
  intros Hnode Hurl.
  assert (Hbase : BASE_URL env = "").
  { unfold BASE_URL, getCurrentEnvironment. rewrite Hnode. simpl.
    destruct (ProcessEnv.NEXT_PUBLIC_BACKEND_URL env) as [url|]; [|reflexivity].
    simpl in *. destruct (String.eqb url ""); [reflexivity|discriminate]. }
  unfold getApiUrl, isApiConfigValid. rewrite Hbase. split; reflexivity.
Qed.

Lemma getApiUrl_unconfigured_witness :
  getApiUrl Scenario.unconfiguredEnv "/auth/login" = "/auth/login".
Proof.
  apply (proj1 (getApiUrl_unconfigured Scenario.unconfiguredEnv "/auth/login"
                  eq_refl eq_refl)).
Defined.

(** X3. When [NODE_ENV] is unset, or is none of "development",
    "production" and "test", the build talks to the development servers on
    localhost, yet it is not a development build for the timeout and the
    debug flag: the request deadline is 10000 ms, not 15000, and debug
    logging is off. *)
Theorem unknown_environment (env : ProcessEnv.t) :
  ProcessEnv.NODE_ENV env <> Some "development" ->
  ProcessEnv.NODE_ENV env <> Some "production" ->
  ProcessEnv.NODE_ENV env <> Some "test" ->
  getCurrentEnvironment env = development
  /\ BASE_URL env = "http://localhost:8080"
  /\ WEBSOCKET_URL env = "ws://localhost:8080"
  /\ TIMEOUT env = 10000
  /\ DEBUG_MODE env = false.
Proof.
  intros Hdev Hprod Htest.
  assert (Henv : getCurrentEnvironment env = development).
  { unfold getCurrentEnvironment.
    rewrite !bool_decide_eq_false_2 by assumption. reflexivity. }
  unfold BASE_URL, WEBSOCKET_URL, TIMEOUT, DEBUG_MODE, isDevelopment.
  rewrite Henv, bool_decide_eq_false_2 by assumption.
  repeat split.
Qed.

Lemma unknown_environment_witness : TIMEOUT Scenario.bareEnv = 10000.
Proof.
  apply (unknown_environment Scenario.bareEnv);
    discriminate.
Defined.

End ConfigFacts.

(** * Further properties of the transport client *)

Module TransportLaws.
Import ApiService.

Lemma makeRequest_shape {T} (localStorage : Storage)
  (fetch : nat -> FetchOutcome T) url options (retries n : nat) :
  let trace := fst (makeRequest localStorage fetch url options n retries) in
  (attempts trace <= S retries)%nat
  /\ S (length (delays trace)) = attempts trace.
Proof.
  revert n. induction retries as [|retries IH]; intros n.
  - simpl. destruct (attempt (fetch n)) as [[m st ed| | | |]|];
      repeat case_match; simpl; lia.
  - simpl. destruct (attempt (fetch n)) as [[m st ed| | | |]|];
      repeat case_match; simpl; try lia;
      match goal with
      | H : makeRequest _ _ _ _ (S n) retries = _ |- _ =>
          specialize (IH (S n)); rewrite H in IH; simpl in IH; lia
      end.
Qed.

(** X4. A call of [makeRequest] with [retries] retries makes at least one
    and at most [retries + 1] calls of [fetch], waits exactly once, for
    1000 ms, before each call after the first, and so never waits more than
    [retries] seconds in all. *)
Theorem makeRequest_bounds {T} (localStorage : Storage)
  (fetch : nat -> FetchOutcome T) url options (n retries : nat) :
  let trace := fst (makeRequest localStorage fetch url options n retries) in
  (1 <= attempts trace <= S retries)%nat
  /\ S (length (delays trace)) = attempts trace
  /\ Forall (fun ms => ms = 1000) (delays trace)
  /\ foldr Z.add 0 (delays trace) <= 1000 * Z.of_nat retries.
Proof.
  intros trace.
  destruct (makeRequest_shape localStorage fetch url options retries n)
    as [Hle Hlen].
  pose proof (TransportFacts.makeRequest_attempts_pos localStorage fetch url
                options n retries) as Hpos.
  pose proof (TransportFacts.makeRequest_delays localStorage fetch url
                options n retries) as Hdelays.
  fold trace in Hle, Hlen, Hpos, Hdelays.
  split; [lia|]. split; [exact Hlen|]. split; [exact Hdelays|].
  assert (Hsum : foldr Z.add 0 (delays trace)
                 = 1000 * Z.of_nat (length (delays trace))).
  { clear Hlen. induction Hdelays as [|ms l Hms _ IHl]; [reflexivity|].
    cbn [foldr length]. rewrite IHl, Hms. unfold API_CONFIG.RETRY_DELAY. lia. }
  rewrite Hsum. lia.
Qed.

Lemma attempt_api_error {T} (settled : FetchOutcome T) message status errorData :
  attempt settled = inl (ApiError message status errorData) ->
  status < 200 \/ 299 < status.
Proof.
  destruct settled as [response|name msg]; [|discriminate].
  unfold attempt, handleResponse.
  destruct (Response.ok response) eqn:Hok; simpl.
  - repeat case_match; discriminate.
  - destruct (Response.json response) as [msg|[d|]]; simpl;
      intros H; inversion H; subst; clear H;
      unfold Response.ok in Hok; apply andb_false_iff in Hok as [Hok|Hok];
      apply Z.leb_gt in Hok; lia.
Qed.

(** X5. Whatever happens on the network, a fault that [makeRequest] raises
    is of one of three kinds: an [ApiError] whose status is not a success
    status and not 422, a [ValidationError], or a [NetworkError]. It never
    lets the raw error of [fetch] or of the JSON decoder through. *)
Theorem makeRequest_faults {T} (localStorage : Storage)
  (fetch : nat -> FetchOutcome T) url options (retries n : nat) (e : Exn) :
  snd (makeRequest localStorage fetch url options n retries) = inl e ->
  (exists message status errorData,
     e = ApiError message status errorData
     /\ status <> 422 /\ (status < 200 \/ 299 < status))
  \/ (exists validationErrors, e = ValidationError validationErrors)
  \/ (exists message, e = NetworkError message).
Proof.
  revert n. induction retries as [|retries IH]; intros n; simpl;
    destruct (attempt (fetch n)) as [[m st ed| | | |]|] eqn:Ha;
    repeat case_match; simpl; intros Hres.
  all: try (inversion Hres; subst; right; eauto; fail).
  all: try (inversion Hres; subst; left; exists m, st, ed;
            split; [reflexivity|];
            split; [apply Z.eqb_neq; assumption
                   |eapply attempt_api_error; eassumption]; fail).
  all: match goal with
       | Hrec : makeRequest _ _ _ _ _ _ = _ |- _ =>
           eapply IH; rewrite Hrec; exact Hres
       end.
Qed.

Lemma makeRequest_faults_witness :
  (exists message status errorData,
     NetworkError "Request timeout" = ApiError message status errorData
     /\ status <> 422 /\ (status < 200 \/ 299 < status))
  \/ (exists validationErrors,
        NetworkError "Request timeout" = ValidationError validationErrors)
  \/ (exists message, NetworkError "Request timeout" = NetworkError message).
Proof.
  apply (makeRequest_faults ∅ (@Scenario.deadline unit)
           API_CONFIG.ENDPOINTS.AUTH.LOGOUT RequestInit.empty 3 0
           (NetworkError "Request timeout") eq_refl).
Defined.

(** X6. Every attempt of a request is the same request: each [fetch] of a
    run goes to the same URL with the method and the body the caller gave,
    keeps every header the caller gave, and has the JSON content type when
    the caller gave none. *)
Theorem makeRequest_same_request {T} (localStorage : Storage)
  (fetch : nat -> FetchOutcome T) url options (n retries : nat) :
  Forall (fun ev =>
            match ev with
            | Fetch url' init =>
                url' = url
                /\ RequestInit.method init = RequestInit.method options
                /\ RequestInit.body init = RequestInit.body options
                /\ RequestInit.headers options ⊆ RequestInit.headers init
                /\ (RequestInit.headers options !! "Content-Type" = None ->
                    RequestInit.headers init !! "Content-Type"
                    = Some "application/json")
            | Delay ms => ms = 1000
            end)
    (fst (makeRequest localStorage fetch url options n retries)).
Proof.
  eapply Forall_impl; [apply TransportFacts.makeRequest_events|].
  intros ev [->| ->]; [|reflexivity]. simpl.
  split; [reflexivity|]. split; [reflexivity|]. split; [reflexivity|].
  split; [apply map_union_subseteq_l|].
  intros Hnone. rewrite lookup_union_r by exact Hnone.
  unfold getHeaders. destruct (truthy (getToken localStorage)).
  - rewrite lookup_insert_ne by discriminate.
    rewrite lookup_insert_ne by discriminate. apply lookup_insert_eq.
  - rewrite lookup_insert_ne by discriminate. apply lookup_insert_eq.
Qed.





Lemma logout_storage (localStorage : Storage) fetch :
  snd (logout localStorage fetch) =
    delete API_CONFIG.STORAGE_KEYS.USER
      (delete API_CONFIG.STORAGE_KEYS.TOKEN localStorage).
Proof.
  unfold logout. destruct (makeRequest _ _ _ _ _ _). reflexivity.
Qed.

(** X8. [logout] always clears the session, whatever becomes of its
    request: afterwards neither the token nor the user is stored, every
    other key of [localStorage] is as before, and requests carry no
    [Authorization] header. *)
Theorem logout_clears (localStorage : Storage) (fetch : nat -> FetchOutcome unit) :
  let localStorage' := snd (logout localStorage fetch) in
  localStorage' !! API_CONFIG.STORAGE_KEYS.TOKEN = None
  /\ localStorage' !! API_CONFIG.STORAGE_KEYS.USER = None
  /\ (forall key,
        key <> API_CONFIG.STORAGE_KEYS.TOKEN ->
        key <> API_CONFIG.STORAGE_KEYS.USER ->
        localStorage' !! key = localStorage !! key)
  /\ getHeaders localStorage' !! "Authorization" = None.
Proof.
  intros localStorage'. subst localStorage'. rewrite logout_storage.
  assert (Htoken :
    delete API_CONFIG.STORAGE_KEYS.USER
      (delete API_CONFIG.STORAGE_KEYS.TOKEN localStorage)
      !! API_CONFIG.STORAGE_KEYS.TOKEN = None).
  { rewrite lookup_delete_ne by discriminate. apply lookup_delete_eq. }
  split; [exact Htoken|]. split; [apply lookup_delete_eq|]. split.
  - intros key Ht Hu. rewrite !lookup_delete_ne by congruence. reflexivity.
  - apply TransportFacts.getHeaders_no_token. rewrite Htoken. reflexivity.
Qed.

(** X9. A successful [login] followed by a [logout] is a round trip on
    [localStorage]: when neither the token nor the user was stored before,
    the store ends exactly as it began. *)
Theorem login_logout_round_trip JSON_stringify
  (localStorage localStorage' : Storage) fetch payload trace user token
  (fetchLogout : nat -> FetchOutcome unit) :
  login JSON_stringify localStorage fetch payload =
    (trace, localStorage', inr (user, token)) ->
  localStorage !! API_CONFIG.STORAGE_KEYS.TOKEN = None ->
  localStorage !! API_CONFIG.STORAGE_KEYS.USER = None ->
  snd (logout localStorage' fetchLogout) = localStorage.
Proof.
  intros Hlogin Htoken Huser.
  destruct (TransportFacts.login_success _ _ _ _ _ _ _ _ Hlogin)
    as [_ Hother].
  rewrite logout_storage. apply map_eq. intros key.
  destruct (decide (key = API_CONFIG.STORAGE_KEYS.USER)) as [->|Hu].
  { rewrite lookup_delete_eq, Huser. reflexivity. }
  rewrite lookup_delete_ne by congruence.
  destruct (decide (key = API_CONFIG.STORAGE_KEYS.TOKEN)) as [->|Ht].
  { rewrite lookup_delete_eq, Htoken. reflexivity. }
  rewrite lookup_delete_ne by congruence.
  apply Hother; assumption.
Qed.

Lemma login_logout_round_trip_witness :
  snd (logout
         (<["chitchat_user" := Scenario.stringify Scenario.alice]>
            (<["chitchat_token" := "jwt-1"]>
               (<["chitchat_draft" := "hello"]> ∅)))
         Scenario.offline)
  = <["chitchat_draft" := "hello"]> ∅.
Proof.
  refine (login_logout_round_trip Scenario.stringify
            (<["chitchat_draft" := "hello"]> ∅) _
            (Scenario.answers (AuthResponse.mk "jwt-1" (Some Scenario.aliceResponse)))
            Scenario.credentials _ Scenario.alice "jwt-1" Scenario.offline
            eq_refl eq_refl eq_refl).
Defined.

(** X10. [handleAuthenticationError] removes the keys "token" and
    "refreshToken" and sends the page to [/auth]; it does not touch the key
    under which the transport client keeps its token, so the requests made
    after it carry the same headers as before. *)
Theorem handleAuthenticationError_keeps_token (localStorage : Storage) :
  let after := fst (ErrorHandler.handleAuthenticationError localStorage) in
  after !! "token" = None
  /\ after !! "refreshToken" = None
  /\ getToken after = getToken localStorage
  /\ getHeaders after = getHeaders localStorage
  /\ snd (ErrorHandler.handleAuthenticationError localStorage)
     = SetLocationHref "/auth".
Proof.
  simpl.
  assert (Htoken :
    getToken (delete "refreshToken" (delete "token" localStorage))
    = getToken localStorage).
  { unfold getToken. rewrite !lookup_delete_ne by discriminate. reflexivity. }
  split; [rewrite lookup_delete_ne by discriminate; apply lookup_delete_eq|].
  split; [apply lookup_delete_eq|]. split; [exact Htoken|].
  split; [|reflexivity]. unfold getHeaders. rewrite Htoken. reflexivity.
Qed.

End TransportLaws.

(** * Further properties of the error classifier and the notifications *)

Module ClassifierLaws.
Import ErrorHandler.

Lemma retryKey_of_context (context : string) :
  context <> "" -> retryKey (Some context) = context.
Proof.
  intros Hne. unfold retryKey, js_or. apply String.eqb_neq in Hne.
  rewrite Hne. reflexivity.
Qed.

Lemma retryKey_nonempty (context : option string) : retryKey context <> "".
Proof.
  unfold retryKey, js_or. destruct context as [c|]; [|discriminate].
  destruct (String.eqb_spec c ""); [discriminate|assumption].
Qed.

(** X11. Registering a retry callback under a non-empty context makes the
    Retry action of a fault raised in that context call it, whatever was
    registered before; unregistering it brings back the fallback: a page
    reload for a 500, nothing for a 502, 503, 504 or a network fault.
    Callbacks registered under other contexts play no part. *)
Theorem retry_callback_round_trip (context other callback callback' : string)
  (retryCallbacks : gmap string string) :
  context <> "" ->
  other <> context ->
  let registered := registerRetryCallback context callback retryCallbacks in
  let unregistered := unregisterRetryCallback context registered in
  run_action (RetryOrReload (Some context)) registered = CallRetryCallback callback
  /\ run_action (RetryOnly (Some context)) registered = CallRetryCallback callback
  /\ run_action (RetryOrReload (Some context)) unregistered = LocationReload
  /\ run_action (RetryOnly (Some context)) unregistered = NoEffect
  /\ run_action (RetryOrReload (Some context))
       (registerRetryCallback other callback' registered)
     = CallRetryCallback callback.
Proof.
  intros Hne Hother registered unregistered.
  unfold run_action. rewrite (retryKey_of_context context Hne).
  subst registered unregistered.
  unfold registerRetryCallback, unregisterRetryCallback.
  rewrite lookup_insert_eq, lookup_delete_eq.
  rewrite lookup_insert_ne by exact Hother. rewrite lookup_insert_eq.
  repeat split.
Qed.

Lemma retry_callback_round_trip_witness :
  run_action (RetryOrReload (Some "sendMessage"))
    (registerRetryCallback "sendMessage" "resend" ∅)
  = CallRetryCallback "resend".
Proof.
  apply (proj1 (retry_callback_round_trip "sendMessage" "loadChats" "resend"
                  "reload" ∅ ltac:(discriminate) ltac:(discriminate))).
Defined.

(** X12. A callback registered under the empty string is never called:
    the action of no notification looks that key up, because a fault
    handled with an empty or a missing context uses the key "default". *)
Theorem empty_context_callback_is_dead (a : ActionClosure) (callback : string)
  (retryCallbacks : gmap string string) :
  run_action a (registerRetryCallback "" callback retryCallbacks)
  = run_action a retryCallbacks
  /\ retryKey (Some "") = "default"
  /\ retryKey None = "default".
Proof.
  split; [|split; reflexivity].
  unfold registerRetryCallback.
  destruct a as [| |context|context]; try reflexivity; simpl;
    rewrite lookup_insert_ne
      by (intros Heq; exact (retryKey_nonempty context (eq_sym Heq)));
    reflexivity.
Qed.

(** X13. Every notification the classifier produces dismisses itself: it
    is closed 5300 ms or 8300 ms after it is shown, never left on screen.
    The offline notice, whose duration is 0, is the one that starts no
    timer. *)
Theorem handleError_auto_closes (e : Exn) (context : option string) :
  (NotificationView.autoClose (handleError e context) = Some 5300
   \/ NotificationView.autoClose (handleError e context) = Some 8300)
  /\ NotificationView.autoClose handleOfflineError = None.
Proof.
  split; [|reflexivity].
  unfold NotificationView.autoClose, NotificationView.duration.
  destruct e as [message status errorData| | | |]; simpl; auto.
  unfold handleApiError, handleBadRequestError.
  repeat match goal with
         | |- context [Z.eqb status ?k] => destruct (Z.eqb status k); simpl; auto
         end.
  destruct (ErrorResponse.validationErrors errorData); simpl; auto.
Qed.

(** X14. A custom notification cannot be made to stay: a duration of 0,
    like a missing one, is replaced by 5000 ms, so for every duration that
    is not negative the notification closes by itself, 300 ms after its
    duration. *)
Theorem createCustomNotification_auto_closes (ty : Severity)
  (title message : string) (duration : option Z)
  (actions : list NotificationAction.t) :
  0 <= default 0 duration ->
  NotificationView.autoClose
    (createCustomNotification ty title message duration actions)
  = Some ((if Z.eqb (default 0 duration) 0 then 5000 else default 0 duration)
          + 300).
Proof.
  intros Hpos. unfold NotificationView.autoClose, NotificationView.duration.
  simpl. destruct duration as [d|]; simpl in *; [|reflexivity].
  destruct (Z.eqb_spec d 0) as [->|Hd]; [reflexivity|].
  destruct (Z.ltb_spec 0 d); [reflexivity|lia].
Qed.

Lemma createCustomNotification_auto_closes_witness :
  NotificationView.autoClose
    (createCustomNotification info "Saved" "Profile updated" (Some 0) [])
  = Some 5300.
Proof.
  apply (createCustomNotification_auto_closes info "Saved" "Profile updated"
           (Some 0) []).
  simpl. lia.
Defined.

End ClassifierLaws.

Module NotificationFacts.
Import NotificationProvider.

Lemma removeNotification_app (id : string) (l1 l2 : list Shown.t) :
  removeNotification id (l1 ++ l2)
  = (removeNotification id l1 ++ removeNotification id l2)%list.
Proof. apply filter_app. Qed.

(** X15. Closing the notification that was just added, when no other
    notification has its id, gives back the list as it was before the
    notification was added. *)
Theorem add_remove_round_trip (now : Z) (notification : ErrorNotification.t)
  (prev : list Shown.t) :
  Forall (fun n => Shown.id n <> pretty now) prev ->
  removeNotification (pretty now) (addNotification now notification prev) = prev.
Proof.
  intros Hfresh. unfold addNotification. rewrite removeNotification_app.
  unfold removeNotification at 2.
  rewrite filter_cons_False by (simpl; intros H; apply H; reflexivity).
  rewrite filter_nil, app_nil_r.
  unfold removeNotification. induction Hfresh as [|n l Hn _ IH]; [reflexivity|].
  rewrite filter_cons_True by exact Hn. rewrite IH. reflexivity.
Qed.

Lemma add_remove_round_trip_witness :
  removeNotification "2000"
    (addNotification 2000 ErrorHandler.handleOfflineError
       [Shown.mk "1000" ErrorHandler.handleNetworkTimeout])
  = [Shown.mk "1000" ErrorHandler.handleNetworkTimeout].
Proof.
  apply (add_remove_round_trip 2000 ErrorHandler.handleOfflineError
           [Shown.mk "1000" ErrorHandler.handleNetworkTimeout]).
  repeat constructor. discriminate.
Defined.

(** X16. The id of a notification is the clock reading at which it was
    added. Two notifications added at different readings are closed
    independently; two added within the same millisecond share their id, and
    closing either closes both. *)
Theorem notifications_of_one_millisecond (now later : Z)
  (first second : ErrorNotification.t) (prev : list Shown.t) :
  now <> later ->
  removeNotification (pretty now)
    (addNotification now second (addNotification now first prev))
  = removeNotification (pretty now) prev
  /\ removeNotification (pretty now)
       (addNotification later second (addNotification now first prev))
     = (removeNotification (pretty now) prev
          ++ [Shown.mk (pretty later) second])%list.
Proof.
  intros Hne. unfold addNotification. rewrite !removeNotification_app.
  assert (Hsame : forall n,
            removeNotification (pretty now) [Shown.mk (pretty now) n] = []).
  { intros n. unfold removeNotification.
    rewrite filter_cons_False by (simpl; intros H; apply H; reflexivity).
    reflexivity. }
  assert (Hother : forall n,
            removeNotification (pretty now) [Shown.mk (pretty later) n]
            = [Shown.mk (pretty later) n]).
  { intros n. unfold removeNotification.
    rewrite filter_cons_True; [reflexivity|].
    simpl. intros Heq. apply Hne. symmetry. exact (inj pretty _ _ Heq). }
  rewrite !Hsame, Hother, !app_nil_r. split; reflexivity.
Qed.

Lemma notifications_of_one_millisecond_witness :
  removeNotification "1000"
    (addNotification 1000 ErrorHandler.handleOfflineError
       (addNotification 1000 ErrorHandler.handleNetworkTimeout []))
  = [].
Proof.
  apply (proj1 (notifications_of_one_millisecond 1000 2000
                  ErrorHandler.handleNetworkTimeout
                  ErrorHandler.handleOfflineError [] ltac:(discriminate))).
Defined.

End NotificationFacts.

(** * Further properties of the session provider *)

Module SessionLaws.
Import AuthProvider.

(** X17. [logout] always ends the session, whatever becomes of the logout
    request: no user, no token, not authenticated, not loading; the stored
    token and user are gone; no notification is shown; at most four
    requests were made; and a [connectWebSocket] from a render of that
    state does nothing. *)
Theorem logout_always_resets (st : AuthState.t) (localStorage : Storage)
  (fetch : nat -> FetchOutcome unit) (s : Store.t) :
  let run := logout st localStorage fetch in
  AuthRun.state run = AuthState.mk None false false None
  /\ AuthRun.notifications run = []
  /\ AuthRun.localStorage run !! API_CONFIG.STORAGE_KEYS.TOKEN = None
  /\ AuthRun.localStorage run !! API_CONFIG.STORAGE_KEYS.USER = None
  /\ (ApiService.attempts (AuthRun.trace run) <= 4)%nat
  /\ ChatProvider.connectWebSocket
       (ChatProvider.render (AuthRun.state run) s) s = s.
Proof.
  intros run. subst run. unfold logout, ApiService.logout.
  pose proof (TransportLaws.makeRequest_shape localStorage fetch
                API_CONFIG.ENDPOINTS.AUTH.LOGOUT
                (RequestInit.mk (Some "POST") ∅ None)
                ApiService.retryAttempts 0) as [Hle _].
  destruct (ApiService.makeRequest _ _ _ _ _ _) as [trace result].
  simpl in *. repeat split.
  - rewrite lookup_delete_ne by discriminate. apply lookup_delete_eq.
  - apply lookup_delete_eq.
  - exact Hle.
Qed.


End SessionLaws.

(** * Further properties of the chat state provider *)

Module ChatLaws.
Import ChatProvider.

Lemma insertByTimestamp_perm (m : Message.t) (l : list Message.t) :
  insertByTimestamp m l ≡ₚ m :: l.
Proof.
  induction l as [|m' l IH]; simpl; [reflexivity|].
  destruct (Message.timestamp m <=? Message.timestamp m'); [reflexivity|].
  rewrite IH. apply Permutation_swap.
Qed.

Lemma insertByTimestamp_sorted (m : Message.t) (l : list Message.t) :
  StronglySorted notLater l -> StronglySorted notLater (insertByTimestamp m l).
Proof.
  intros Hs. induction Hs as [|m' l Hs IH Hall]; simpl.
  - repeat constructor.
  - destruct (Z.leb_spec (Message.timestamp m) (Message.timestamp m'))
      as [Hle|Hgt].
    + constructor; [constructor; assumption|].
      constructor; [exact Hle|].
      eapply Forall_impl; [exact Hall|]. unfold notLater. intros; lia.
    + constructor; [exact IH|].
      rewrite insertByTimestamp_perm.
      constructor; [unfold notLater; lia|exact Hall].
Qed.

Lemma sortByTimestamp_of_sorted (l : list Message.t) :
  StronglySorted notLater l -> sortByTimestamp l = l.
Proof.
  intros Hs. induction Hs as [|m l Hs IH Hall]; [reflexivity|].
  unfold sortByTimestamp in *. simpl. rewrite IH.
  destruct Hall as [|m' l' Hm' _]; [reflexivity|]. simpl.
  apply Z.leb_le in Hm'. rewrite Hm'. reflexivity.
Qed.

Lemma sortByTimestamp_sorted (l : list Message.t) :
  StronglySorted notLater (sortByTimestamp l).
Proof.
  induction l as [|m l IH]; [constructor|].
  apply insertByTimestamp_sorted, IH.
Qed.

(** X19. The sort applied to loaded messages puts them in ascending order
    of timestamp and neither loses nor invents a message; messages that
    already are in order, equal timestamps included, stay exactly as they
    are, so sorting twice is sorting once. *)
Theorem sortByTimestamp_sorts (messages : list Message.t) :
  StronglySorted notLater (sortByTimestamp messages)
  /\ sortByTimestamp messages ≡ₚ messages
  /\ sortByTimestamp (sortByTimestamp messages) = sortByTimestamp messages
  /\ (StronglySorted notLater messages -> sortByTimestamp messages = messages).
Proof.
  split; [apply sortByTimestamp_sorted|]. split.
  - induction messages as [|m l IH]; [reflexivity|].
    unfold sortByTimestamp in *. simpl.
    rewrite insertByTimestamp_perm, IH. reflexivity.
  - split; [apply sortByTimestamp_of_sorted, sortByTimestamp_sorted
           |apply sortByTimestamp_of_sorted].
Qed.

Lemma loadMessages_activeChat (localStorage : Storage) fetch roomId (s : Store.t) :
  Store.activeChat (SendRun.store (loadMessages localStorage fetch roomId s))
  = Store.activeChat s.
Proof.
  unfold loadMessages.
  destruct (ApiService.getRoomMessages _ _ _) as [trace [e|messages]];
    reflexivity.
Qed.

Lemma loadMessages_ids (localStorage : Storage) fetch roomId (s : Store.t) :
  map Chat.id
    (Store.chats (SendRun.store (loadMessages localStorage fetch roomId s)))
  = map Chat.id (Store.chats s).
Proof.
  unfold loadMessages.
  destruct (ApiService.getRoomMessages _ _ _) as [trace [e|messages]];
    [reflexivity|].
  simpl. rewrite map_map. apply map_ext. intros chat.
  destruct (decide (Chat.id chat = roomId)); reflexivity.
Qed.

Lemma loadMessages_trace (localStorage : Storage) fetch roomId (s : Store.t) :
  SendRun.trace (loadMessages localStorage fetch roomId s) <> [].
Proof.
  unfold loadMessages, ApiService.getRoomMessages.
  pose proof (TransportFacts.makeRequest_attempts_pos localStorage fetch
                (API_CONFIG.ENDPOINTS.CHAT.MESSAGES roomId) RequestInit.empty
                0 ApiService.retryAttempts) as Hpos.
  destruct (ApiService.makeRequest _ _ _ _ _ _) as [trace response].
  simpl in Hpos.
  assert (Hne : trace <> []) by (intros ->; simpl in Hpos; lia).
  destruct response as [e|[res|]]; exact Hne.
Qed.

(** X20. When the messages of a room are loaded successfully, the list of
    every room with that id becomes the loaded messages in ascending order
    of timestamp, replacing what was there; the other rooms are untouched,
    nothing is shown, and loading the same messages again changes nothing.
    [activeChat] is not updated, even when the room loaded is the active
    one. When the request fails, the state is unchanged and one
    notification is shown for the context "loadMessages". *)
Theorem loadMessages_outcome (localStorage : Storage)
  (fetch : nat -> FetchOutcome (list MessageResponse.t)) (roomId : string)
  (s : Store.t) :
  let run := loadMessages localStorage fetch roomId s in
  Store.activeChat (SendRun.store run) = Store.activeChat s
  /\ match snd (ApiService.getRoomMessages localStorage fetch roomId) with
     | inr messages =>
         (forall i chat,
            Store.chats s !! i = Some chat ->
            exists chat',
              Store.chats (SendRun.store run) !! i = Some chat'
              /\ Chat.id chat' = Chat.id chat
              /\ Chat.messages chat' =
                   if decide (Chat.id chat = roomId)
                   then sortByTimestamp messages
                   else Chat.messages chat)
         /\ SendRun.notifications run = []
         /\ SendRun.store
              (loadMessages localStorage fetch roomId (SendRun.store run))
            = SendRun.store run
     | inl e =>
         SendRun.store run = s
         /\ SendRun.notifications run =
              [ErrorHandler.handleError e (Some "loadMessages")]
     end.
Proof.
  intros run. split; [apply loadMessages_activeChat|].
  subst run. unfold loadMessages.
  destruct (ApiService.getRoomMessages localStorage fetch roomId)
    as [trace [e|messages]]; simpl; [split; reflexivity|].
  split; [|split; [reflexivity|]].
  - intros i chat Hi. rewrite list_lookup_fmap, Hi. simpl.
    eexists. split; [reflexivity|].
    destruct (decide (Chat.id chat = roomId)); split; reflexivity.
  - unfold Store.setChats. simpl. f_equal.
    rewrite map_map. apply map_ext. intros chat.
    destruct (decide (Chat.id chat = roomId)) as [Heq|Hne]; simpl.
    + rewrite decide_True by exact Heq. reflexivity.
    + rewrite decide_False by exact Hne. reflexivity.
Qed.

Lemma getRooms_rooms (localStorage : Storage) fetch trace loadedChats :
  ApiService.getRooms localStorage fetch = (trace, inr loadedChats) ->
  Forall (fun chat => Chat.messages chat = []) loadedChats.
Proof.
  unfold ApiService.getRooms.
  destruct (ApiService.makeRequest _ _ _ _ _ _) as [trace0 [e|[res|]]];
    intros H; inversion H; subst; clear H.
  induction res as [|room res IH]; simpl; constructor; [reflexivity|exact IH].
Qed.

(** X21. [loadChats] always ends with the loading flag off. When the rooms
    are loaded, they replace the room list, each with an empty message
    list, so messages cached before are dropped; the first room becomes the
    active one only if the render that called had none, otherwise
    [activeChat] is kept as it is; nothing is shown. When the request
    fails, the room list is emptied, [activeChat] is kept, and one
    notification is shown for the context "loadChats". *)
Theorem loadChats_outcome (r : Render.t) (localStorage : Storage)
  (fetch : nat -> FetchOutcome (list ChatRoomResponse.t)) (s : Store.t) :
  let run := loadChats r localStorage fetch s in
  Store.isLoading (SendRun.store run) = false
  /\ match snd (ApiService.getRooms localStorage fetch) with
     | inr loadedChats =>
         Store.chats (SendRun.store run) = loadedChats
         /\ Forall (fun chat => Chat.messages chat = [])
              (Store.chats (SendRun.store run))
         /\ Store.activeChat (SendRun.store run) =
              match Render.activeChat r, loadedChats with
              | None, first :: _ => Some first
              | _, _ => Store.activeChat s
              end
         /\ SendRun.notifications run = []
     | inl e =>
         Store.chats (SendRun.store run) = []
         /\ Store.activeChat (SendRun.store run) = Store.activeChat s
         /\ SendRun.notifications run =
              [ErrorHandler.handleError e (Some "loadChats")]
     end.
Proof.
  intros run. subst run. unfold loadChats.
  destruct (ApiService.getRooms localStorage fetch)
    as [trace [e|loadedChats]] eqn:Hrooms; simpl.
  - repeat split.
  - pose proof (getRooms_rooms _ _ _ _ Hrooms) as Hempty.
    unfold loadChats_resolved.
    destruct loadedChats as [|first rest], (Render.activeChat r);
      simpl; repeat split; assumption.
Qed.

(** X22. Activating a room always sets [activeChat] to it and never adds,
    removes or reorders rooms. A request for its messages is issued if and
    only if the room comes with an empty message list: a room whose
    messages are already there, and a deselection, cost no request. *)
Theorem handleSetActiveChat_lazy (localStorage : Storage)
  (fetch : nat -> FetchOutcome (list MessageResponse.t))
  (chat : option Chat.t) (s : Store.t) :
  let run := handleSetActiveChat localStorage fetch chat s in
  Store.activeChat (SendRun.store run) = chat
  /\ map Chat.id (Store.chats (SendRun.store run)) = map Chat.id (Store.chats s)
  /\ (SendRun.trace run = [] <->
      match chat with
      | Some c => Chat.messages c <> []
      | None => True
      end).
Proof.
  intros run. subst run. unfold handleSetActiveChat.
  destruct chat as [c|]; [|repeat split].
  destruct (Chat.messages c) as [|m ms] eqn:Hms.
  - split; [rewrite loadMessages_activeChat; reflexivity|].
    split; [rewrite loadMessages_ids; reflexivity|].
    split; [intros H; exfalso; exact (loadMessages_trace _ _ _ _ H)
           |intros H; exfalso; apply H; reflexivity].
  - repeat split. discriminate.
Qed.

Lemma map_unchanged {A} (f : A -> A) (l : list A) :
  Forall (fun x => f x = x) l -> map f l = l.
Proof.
  intros H. induction H as [|x l Hx _ IH]; simpl; [reflexivity|].
  rewrite Hx, IH. reflexivity.
Qed.

(** X23. A pushed event changes the state only when it is a new message
    for a known room: an event of any other type is ignored, and a new
    message for a room that is neither in the room list nor the active
    room of the handler's render is dropped without a trace. *)
Theorem handleWebSocketMessage_ignores (r : Render.t)
  (wsMessage : WebSocketMessage.t) (s : Store.t) :
  (WebSocketMessage.type wsMessage <> NEW_MESSAGE ->
   handleWebSocketMessage r wsMessage s = s)
  /\ (Forall (fun chat => Chat.id chat <> WebSocketMessage.roomId wsMessage)
        (Store.chats s) ->
      isActive (Render.activeChat r) (WebSocketMessage.roomId wsMessage) = false ->
      handleWebSocketMessage r wsMessage s = s).
Proof.
  unfold handleWebSocketMessage. split.
  - intros Hty. destruct (WebSocketMessage.type wsMessage);
      [congruence|reflexivity..].
  - intros Hunknown Hinactive.
    destruct (WebSocketMessage.type wsMessage); try reflexivity.
    simpl. rewrite Hinactive. unfold Store.setChats.
    rewrite map_unchanged; [destruct s; reflexivity|].
    eapply Forall_impl; [exact Hunknown|]. intros chat Hne. simpl in Hne.
    rewrite decide_False by exact Hne. reflexivity.
Qed.

Lemma handleWebSocketMessage_ignores_witness :
  handleWebSocketMessage (render Scenario.session Store.initial)
    (WebSocketMessage.mk TYPING_INDICATOR "" "u2" "r1" "" 0 text)
    Store.initial
  = Store.initial.
Proof.
  apply (proj1 (handleWebSocketMessage_ignores
                  (render Scenario.session Store.initial)
                  (WebSocketMessage.mk TYPING_INDICATOR "" "u2" "r1" "" 0 text)
                  Store.initial)).
  discriminate.
Defined.

(** X24. The client does not reconcile a message it sent with the copy
    the server pushes back: after a successful [sendMessage] and the push of
    the confirmed message for the same room, the room's list ends with two
    entries for the one message sent, the provisional one followed by the
    confirmed one. *)
Theorem echo_is_not_deduplicated (auth : AuthState.t) (s : Store.t)
  (localStorage : Storage) (fetch : nat -> FetchOutcome MessageResponse.t)
  (roomId content : string) (messageType : MessageType) (now date : Z)
  (currentUser : User.t) (trace : list NetEvent) (confirmed : Message.t)
  (r' : Render.t) (wsMessage : WebSocketMessage.t) (i : nat) (chat : Chat.t) :
  AuthState.user auth = Some currentUser ->
  ApiService.sendMessage localStorage fetch roomId
    (SendMessagePayload.mk content messageType) = (trace, inr confirmed) ->
  Store.chats s !! i = Some chat ->
  Chat.id chat = roomId ->
  WebSocketMessage.type wsMessage = NEW_MESSAGE ->
  WebSocketMessage.roomId wsMessage = roomId ->
  let sent :=
    SendRun.store
      (sendMessage (render auth s) localStorage fetch roomId content
         messageType now date s) in
  exists chat',
    Store.chats (handleWebSocketMessage r' wsMessage sent) !! i = Some chat'
    /\ Chat.messages chat' =
         (Chat.messages chat
            ++ [optimisticMessage currentUser roomId content messageType now date;
                ApiService.mapWebSocketMessageToMessage wsMessage])%list.
Proof.
  intros Huser Hsend Hi Hid Htype Hroom sent.
  assert (Hsent :
    Store.chats sent =
      appendToRoom roomId
        (optimisticMessage currentUser roomId content messageType now date)
        (Store.chats s)).
  { subst sent. unfold sendMessage, sendMessage_pending. simpl.
    rewrite Huser, Hsend. simpl. unfold applyOptimistic.
    destruct (isActive _ _); reflexivity. }
  destruct (ChatFacts.appendToRoom_lookup roomId
              (optimisticMessage currentUser roomId content messageType now date)
              (Store.chats s) i chat Hi) as (chat1 & Hi1 & Hid1 & Hms1).
  rewrite <- Hsent in Hi1.
  destruct (ChatFacts.handleWebSocketMessage_appends r' wsMessage sent i chat1
              Htype Hi1) as (chat' & Hi' & Hms' & _).
  { rewrite Hid1, Hid, Hroom. reflexivity. }
  exists chat'. split; [exact Hi'|].
  rewrite Hms', Hms1, decide_True by exact Hid.
  rewrite <- app_assoc. reflexivity.
Qed.

Lemma echo_is_not_deduplicated_witness :
  exists chat',
    Store.chats
      (handleWebSocketMessage (render Scenario.session Store.initial)
         (WebSocketMessage.mk NEW_MESSAGE "m-42" "u1" "r1" "hi" 1000 text)
         (SendRun.store
            (sendMessage
               (render Scenario.session
                  (Store.mk [Scenario.room1] (Some Scenario.room1) false false None))
               ∅ (Scenario.answers Scenario.echo) "r1" "hi" text 1000 1000
               (Store.mk [Scenario.room1] (Some Scenario.room1) false false None))))
      !! O = Some chat'
    /\ map Message.id (Chat.messages chat') = ["temp-1000"; "m-42"].
Proof.
  destruct (echo_is_not_deduplicated Scenario.session
              (Store.mk [Scenario.room1] (Some Scenario.room1) false false None)
              ∅ (Scenario.answers Scenario.echo) "r1" "hi" text 1000 1000
              Scenario.alice _ _ (render Scenario.session Store.initial)
              (WebSocketMessage.mk NEW_MESSAGE "m-42" "u1" "r1" "hi" 1000 text)
              O Scenario.room1 eq_refl eq_refl eq_refl eq_refl eq_refl eq_refl)
    as (chat' & Hi & Hms).
  exists chat'. split; [exact Hi|]. rewrite Hms. reflexivity.
Defined.

Lemma appendToRoom_frame (roomId : string) (m : Message.t) (chats : list Chat.t) :
  map (fun chat =>
         (Chat.id chat, Chat.type chat, Chat.name chat,
          Chat.participants chat, Chat.lastMessage chat))
    (appendToRoom roomId m chats)
  = map (fun chat =>
           (Chat.id chat, Chat.type chat, Chat.name chat,
            Chat.participants chat, Chat.lastMessage chat)) chats.
Proof.
  unfold appendToRoom. rewrite map_map. apply map_ext. intros chat.
  destruct (decide (Chat.id chat = roomId)); reflexivity.
Qed.

Lemma removeFromRoom_frame (roomId id : string) (chats : list Chat.t) :
  map (fun chat =>
         (Chat.id chat, Chat.type chat, Chat.name chat,
          Chat.participants chat, Chat.lastMessage chat))
    (removeFromRoom roomId id chats)
  = map (fun chat =>
           (Chat.id chat, Chat.type chat, Chat.name chat,
            Chat.participants chat, Chat.lastMessage chat)) chats.
Proof.
  unfold removeFromRoom. rewrite map_map. apply map_ext. intros chat.
  destruct (decide (Chat.id chat = roomId)); reflexivity.
Qed.

(** X25. Whether it succeeds, fails or returns at once, [sendMessage]
    touches nothing but message lists: the rooms are the same rooms in the
    same order, each with its id, type, name, participants and last message
    as before (the last message is not updated by a send), the connection is
    untouched, at most one notification is shown and at most four requests
    are made. *)
Theorem sendMessage_frame (r : Render.t) (localStorage : Storage)
  (fetch : nat -> FetchOutcome MessageResponse.t) (roomId content : string)
  (messageType : MessageType) (now date : Z) (s : Store.t) :
  let run :=
    sendMessage r localStorage fetch roomId content messageType now date s in
  map (fun chat =>
         (Chat.id chat, Chat.type chat, Chat.name chat,
          Chat.participants chat, Chat.lastMessage chat))
    (Store.chats (SendRun.store run))
  = map (fun chat =>
           (Chat.id chat, Chat.type chat, Chat.name chat,
            Chat.participants chat, Chat.lastMessage chat))
      (Store.chats s)
  /\ (Chat.id <$> Store.activeChat (SendRun.store run))
     = (Chat.id <$> Store.activeChat s)
  /\ Store.stompClientRef (SendRun.store run) = Store.stompClientRef s
  /\ (length (SendRun.notifications run) <= 1)%nat
  /\ (ApiService.attempts (SendRun.trace run) <= 4)%nat.
Proof.
  intros run. subst run. unfold sendMessage, sendMessage_pending.
  destruct (Render.currentUser r) as [currentUser|];
    [|simpl; repeat split; lia].
  unfold ApiService.sendMessage.
  pose proof (TransportLaws.makeRequest_shape localStorage fetch
                (API_CONFIG.ENDPOINTS.CHAT.SEND_MESSAGE roomId)
                (RequestInit.mk (Some "POST") ∅
                   (Some (SendMessageBody
                            (SendMessagePayload.mk content messageType))))
                ApiService.retryAttempts 0) as [Hle _].
  destruct (ApiService.makeRequest _ _ _ _ _ _) as [trace response].
  simpl in Hle.
  assert (Hactive : forall m,
    (Chat.id <$> Store.activeChat (applyOptimistic r roomId m s))
    = (Chat.id <$> Store.activeChat s)).
  { intros m. unfold applyOptimistic. destruct (isActive _ _); [|reflexivity].
    simpl. destruct (Store.activeChat s); reflexivity. }
  assert (Hchats : forall m,
    Store.chats (applyOptimistic r roomId m s)
    = appendToRoom roomId m (Store.chats s)).
  { intros m. unfold applyOptimistic. destruct (isActive _ _); reflexivity. }
  assert (Href : forall m,
    Store.stompClientRef (applyOptimistic r roomId m s)
    = Store.stompClientRef s).
  { intros m. unfold applyOptimistic. destruct (isActive _ _); reflexivity. }
  destruct response as [e|[res|]]; simpl;
    rewrite ?Hchats, ?removeFromRoom_frame, ?appendToRoom_frame, ?Hactive, ?Href;
    repeat split; try lia; exact Hle.
Qed.

(** X26. The id of a provisional message depends on the clock reading
    alone: two provisional messages have the same id exactly when their
    clock readings are equal, whoever sends them, to whatever room, with
    whatever content. *)
Theorem optimistic_id_is_the_clock (user user' : User.t)
  (roomId roomId' content content' : string)
  (messageType messageType' : MessageType) (now now' date date' : Z) :
  Message.id (optimisticMessage user roomId content messageType now date)
  = Message.id (optimisticMessage user' roomId' content' messageType' now' date')
  <-> now = now'.
Proof.
  simpl. split; [|intros ->; reflexivity].
  intros Heq. injection Heq as Heq. exact (inj pretty _ _ Heq).
Qed.

(** X27. When a room has been created it is added at the end of the room
    list; it is subscribed to, once, only if the client is connected at that
    moment, otherwise no subscription is made. When the creation fails the
    state is unchanged and one notification is shown for the context
    "createRoom". *)
Theorem createRoom_outcome (newRoom : Chat.t) (e : Exn) (s : Store.t) :
  let created := fst (createRoom_settled (inr newRoom) s) in
  Store.chats created = (Store.chats s ++ [newRoom])%list
  /\ subscribed created =
       (subscribed s
          ++ match Store.stompClientRef s with
             | Some c =>
                 if Client.connected c
                 then [roomDestination (Chat.id newRoom)]
                 else []
             | None => []
             end)%list
  /\ snd (createRoom_settled (inr newRoom) s) = []
  /\ createRoom_settled (inl e) s
     = (s, [ErrorHandler.handleError e (Some "createRoom")]).
Proof.
  simpl. unfold createRoom_resolved, subscribeToRoom, subscribed. simpl.
  destruct (Store.stompClientRef s) as [c|] eqn:Href; simpl.
  - destruct (Client.connected c); simpl; rewrite ?Href, ?app_nil_r;
      repeat split.
  - rewrite ?Href. repeat split.
Qed.

(** X28. Connecting is idempotent once the connection stands: after a
    [connectWebSocket] and the [onConnect] that follows, a further
    [connectWebSocket] from any render changes nothing, subscriptions
    included. Without a token, or when not authenticated, it never creates a
    client. *)
Theorem connectWebSocket_idempotent (auth : AuthState.t) (s : Store.t)
  (r' : Render.t) (currentUser : User.t) :
  truthy (AuthState.token auth) = true ->
  AuthState.isAuthenticated auth = true ->
  AuthState.user auth = Some currentUser ->
  Store.stompClientRef s = None ->
  let connected := onConnect (connectWebSocket (render auth s) s) in
  connectWebSocket r' connected = connected
  /\ Store.isWebSocketConnected connected = true
  /\ (truthy (Render.token r') = false \/ Render.isAuthenticated r' = false ->
      connectWebSocket r' s = s).
Proof.
  intros Htoken Hauth Huser Href connected.
  assert (Hconnect :
    connectWebSocket (render auth s) s =
      Store.setStompClient
        (Some (Client.mk false []
                 ("Bearer " +:+ default "" (AuthState.token auth)) 5000
                 (render auth s))) s).
  { unfold connectWebSocket. simpl. rewrite Htoken, Hauth, Href. reflexivity. }
  subst connected. rewrite Hconnect.
  erewrite ChatFacts.onConnect_store; [|reflexivity|exact Huser].
  split; [|split; [reflexivity|]].
  - unfold connectWebSocket. simpl. rewrite orb_true_r. reflexivity.
  - intros [H|H]; unfold connectWebSocket; rewrite H; simpl;
      rewrite ?orb_true_r; reflexivity.
Qed.

Lemma connectWebSocket_idempotent_witness :
  Store.isWebSocketConnected
    (onConnect
       (connectWebSocket (render Scenario.session Store.initial) Store.initial))
  = true.
Proof.
  apply (proj1 (proj2 (connectWebSocket_idempotent Scenario.session
                         Store.initial
                         (render AuthState.initial Store.initial)
                         Scenario.alice eq_refl eq_refl eq_refl eq_refl))).
Defined.

End ChatLaws.
